(** * image2image: layer-composition blocks and training utilities

    A shallow embedding of

      - [src/cfg/enums.py]                      (the enum modules)
      - [src/img2img/nn/blocks.py]              (module [blocks])
      - [src/img2img/models/pix2pix/utils.py]   (module [utils])

    Python integers are [Z], strings are [string], dictionaries are
    [gmap string _], exceptions are values of [exn] carried by [result].
    Everything that belongs to the deep-learning framework (tensors, the
    constructors and forward passes of the built-in layers, optimizers,
    serialisation, image output) is an interface: a type class whose
    operations the embedded code calls and about which the theorems assume
    only what they state. *)

From Stdlib Require Import ZArith QArith_base Ascii String.
From stdpp Require Import base option list gmap strings pretty.

Local Open Scope Z_scope.

(** ** Python runtime: exceptions and results *)

Inductive exn : Type :=
| NotImplementedError (msg : string)
| StopIteration
| KeyError (key : string)
| ValueError (msg : string)
| RuntimeError (msg : string)
| FrameworkError (code : Z).

Inductive result (A : Type) : Type :=
| Ok (a : A)
| Raise (e : exn).
Arguments Ok {A} a.
Arguments Raise {A} e.

#[global] Instance result_ret : MRet result := fun A a => Ok a.

#[global] Instance result_bind : MBind result := fun A B k r =>
  match r with
  | Ok a => k a
  | Raise e => Raise e
  end.

(** A value that reaches a parameter annotated with the enum class [E].
    Annotations are not enforced, so it is either a member of [E] or some
    other object; such an object answers [==] against a member through its
    own [__eq__], and is printed through its own [__str__]. *)
Inductive arg (E : Type) : Type :=
| Member (e : E)
| Foreign (str : string) (eq_member : E -> bool).
Arguments Member {E} e.
Arguments Foreign {E} str eq_member.

(** [a == E.X]: members of an [Enum] compare by identity. *)
Definition py_eq {E} `{EqDecision E} (a : arg E) (x : E) : bool :=
  match a with
  | Member e => bool_decide (e = x)
  | Foreign _ f => f x
  end.

(** [str(a)], given the class's [str] on its members. *)
Definition py_str {E} (member_str : E -> string) (a : arg E) : string :=
  match a with
  | Member e => member_str e
  | Foreign s _ => s
  end.

Definition is_member {E} (a : arg E) : Prop :=
  match a with
  | Member _ => True
  | Foreign _ _ => False
  end.

(** A computation that reads and writes a world [W] and may raise; the
    world reached when the exception is raised is kept. *)
Definition M (W A : Type) : Type := W -> result A * W.

#[global] Instance M_ret {W} : MRet (M W) := fun A a w => (Ok a, w).

#[global] Instance M_bind {W} : MBind (M W) := fun A B k m w =>
  match m w with
  | (Ok a, w') => k a w'
  | (Raise e, w') => (Raise e, w')
  end.

Definition lift {W A} (r : result A) : M W A := fun w => (r, w).

Definition modify {W} (f : W -> W) : M W unit := fun w => (Ok tt, f w).

Definition gets {W A} (f : W -> A) : M W A := fun w => (Ok (f w), w).

(** ** pathlib *)

(** A POSIX path, held as its text. *)
Inductive Path : Type := MkPath (literal : string).

Definition path_literal (p : Path) : string :=
  match p with MkPath s => s end.

(** [s.split("/")], with [cur] the piece being read. *)
Fixpoint split_slash (s : string) (cur : string) : list string :=
  match s with
  | EmptyString => [cur]
  | String c s' =>
      if bool_decide (c = "/"%char) then cur :: split_slash s' EmptyString
      else split_slash s' (cur +:+ String c EmptyString)
  end.

(** The components pathlib keeps of a text: empty pieces and ["."] are
    dropped. *)
Definition path_parts (s : string) : list string :=
  filter (fun x => x <> EmptyString /\ x <> "."%string) (split_slash s EmptyString).

(** The root pathlib reads off a text: exactly two leading slashes are
    kept as they are, any other number of leading slashes is one. *)
Definition path_root (s : string) : string :=
  match s with
  | String "/" (String "/" (String "/" _)) => "/"
  | String "/" (String "/" _) => "//"
  | String "/" _ => "/"
  | _ => EmptyString
  end.

Fixpoint join_slash (parts : list string) : string :=
  match parts with
  | [] => EmptyString
  | [x] => x
  | x :: rest => x +:+ "/" +:+ join_slash rest
  end.

(** [str] of the path with the given root and components. *)
Definition path_render (root : string) (parts : list string) : Path :=
  match root, parts with
  | EmptyString, [] => MkPath "."
  | _, _ => MkPath (root +:+ join_slash parts)
  end.

(** [Path(s)]. *)
Definition Path_ (s : string) : Path :=
  path_render (path_root s) (path_parts s).

(** [Path.is_absolute] on a POSIX path: it has a root. *)
Definition is_absolute (p : Path) : bool :=
  match path_literal p with
  | String c _ => bool_decide (c = "/"%char)
  | EmptyString => false
  end.

(** [folder / name]: an absolute [name] replaces the folder, any other is
    appended to its components. *)
Definition path_div (folder : Path) (name : string) : Path :=
  match path_root name with
  | EmptyString =>
      path_render (path_root (path_literal folder))
        (path_parts (path_literal folder) ++ path_parts name)
  | _ => Path_ name
  end.

(** ** cfg/enums.py *)

Module DatasetType.

Inductive t : Type :=
| ANIME_DATASET
| NATURAL_VIEW_DATASET
| EDGES2SHOES
| AFHQ_CATS_DATASET.

Definition value (d : t) : Path :=
  match d with
  | ANIME_DATASET =>
      Path_ "/media/omarabdelgawad/New Volume/Datasets/image_coloring/anime_dataset/"
  | NATURAL_VIEW_DATASET =>
      Path_ "/media/omarabdelgawad/New Volume/Datasets/image_coloring/natural_view/"
  | EDGES2SHOES =>
      Path_ "/media/omarabdelgawad/New Volume/Datasets/image_coloring/edges2shoes/"
  | AFHQ_CATS_DATASET =>
      Path_ "/home/eyad/Downloads/afhq/"
  end.

(** Iterating the class, [list(DatasetType)], in definition order. *)
Definition members : list t :=
  [ANIME_DATASET; NATURAL_VIEW_DATASET; EDGES2SHOES; AFHQ_CATS_DATASET].

#[global] Instance eq_dec : EqDecision t.
Proof. solve_decision. Defined.

End DatasetType.

Module PaddingType.

Inductive t : Type := REFLECT | REPLICATE | ZERO.

Definition value (p : t) : string :=
  match p with
  | REFLECT => "reflect"
  | REPLICATE => "replicate"
  | ZERO => "zero"
  end.

#[global] Instance eq_dec : EqDecision t.
Proof. solve_decision. Defined.

End PaddingType.

Module NormalizationType.

Inductive t : Type := BATCH | INSTANCE | LAYER | NONE.

Definition value (n : t) : option string :=
  match n with
  | BATCH => Some "batch"
  | INSTANCE => Some "instance"
  | LAYER => Some "layer"
  | NONE => None
  end.

(** [str(member)]. *)
Definition str (n : t) : string :=
  match n with
  | BATCH => "NormalizationType.BATCH"
  | INSTANCE => "NormalizationType.INSTANCE"
  | LAYER => "NormalizationType.LAYER"
  | NONE => "NormalizationType.NONE"
  end.

#[global] Instance eq_dec : EqDecision t.
Proof. solve_decision. Defined.

End NormalizationType.

Module ActivationType.

Inductive t : Type := RELU | LEAKY_RELU | TANH | SIGMOID | NONE.

Definition value (a : t) : option string :=
  match a with
  | RELU => Some "relu"
  | LEAKY_RELU => Some "leaky_relu"
  | TANH => Some "tanh"
  | SIGMOID => Some "sigmoid"
  | NONE => None
  end.

(** [str(member)]. *)
Definition str (a : t) : string :=
  match a with
  | RELU => "ActivationType.RELU"
  | LEAKY_RELU => "ActivationType.LEAKY_RELU"
  | TANH => "ActivationType.TANH"
  | SIGMOID => "ActivationType.SIGMOID"
  | NONE => "ActivationType.NONE"
  end.

#[global] Instance eq_dec : EqDecision t.
Proof. solve_decision. Defined.

End ActivationType.

(** ** img2img/nn/blocks.py *)

(** The framework's built-in layers, as the constructor calls that the
    blocks make: each value records the class and the arguments passed. The
    literal [0.2] is the rational 2/10. *)
Inductive Layer : Type :=
| Conv2d (in_channels out_channels kernel_size stride padding : Z)
         (padding_mode : string) (bias : bool)
| BatchNorm2d (num_features : Z)
| InstanceNorm2d (num_features : Z)
| LayerNorm (normalized_shape : Z)
| Identity
| ReLU (inplace : bool)
| LeakyReLU (negative_slope : Q) (inplace : bool)
| Tanh
| Sigmoid.

(** Modules: a built-in layer is the constructor call that made it
    together with what that call produced (the object with its parameters
    and buffers, of the framework's type [I]); then [nn.Sequential], and the
    four classes of blocks.py with the attributes their constructors
    assign. *)
#[warnings="-register-all"] Inductive Module_ (I : Type) : Type :=
| Builtin (l : Layer) (object : I)
| Sequential (children : list (Module_ I))
| ConvBlock (norm_dim : Z) (normalization_layer _activation_layer model : Module_ I)
| ConvBlocks (layers : list (Module_ I)) (model : Module_ I)
| ResBlock (model : Module_ I)
| ResBlocks (layers : list (Module_ I)) (model : Module_ I).
Arguments Builtin {I} l object.
Arguments Sequential {I} children.
Arguments ConvBlock {I} norm_dim normalization_layer _activation_layer model.
Arguments ConvBlocks {I} layers model.
Arguments ResBlock {I} model.
Arguments ResBlocks {I} layers model.

(** The tensor side of the framework: the objects that layer constructors
    produce, what applying such an object to a tensor gives, and tensor
    addition. Both operations can raise (shape mismatch). *)
Class TensorOps : Type := {
  Tensor : Type;
  LayerObject : Type;
  layer_forward : Layer -> LayerObject -> Tensor -> result Tensor;
  tensor_add : Tensor -> Tensor -> result Tensor
}.

(** Running a layer constructor: it may reject its arguments, and it
    draws the initial parameters from the framework's state [Torch] (the
    random number generator), which it advances. *)
Class LayerCtor `{TensorOps} : Type := {
  Torch : Type;
  construct : Layer -> M Torch LayerObject
}.

Module blocks.

(** [ConvBlock._normalization_selector]; [norm_dim] is [self.norm_dim]. The
    result is the constructor call of the branch taken; [ConvBlock.__init__]
    below runs it at once. *)
Definition _normalization_selector (norm_dim : Z)
    (normalization_type : arg NormalizationType.t) : result Layer :=
  if py_eq normalization_type NormalizationType.BATCH then
    Ok (BatchNorm2d norm_dim)
  else if py_eq normalization_type NormalizationType.INSTANCE then
    Ok (InstanceNorm2d norm_dim)
  else if py_eq normalization_type NormalizationType.LAYER then
    Ok (LayerNorm norm_dim)
  else if py_eq normalization_type NormalizationType.NONE then
    Ok Identity
  else
    Raise (NotImplementedError
             ("Normalization type " +:+ py_str NormalizationType.str normalization_type
              +:+ " is not implemented.")).

(** [ConvBlock._activation_layer_selector], likewise. *)
Definition _activation_layer_selector
    (activation_type : arg ActivationType.t) : result Layer :=
  if py_eq activation_type ActivationType.RELU then
    Ok (ReLU true)
  else if py_eq activation_type ActivationType.LEAKY_RELU then
    Ok (LeakyReLU (Qmake 2 10) true)
  else if py_eq activation_type ActivationType.TANH then
    Ok Tanh
  else if py_eq activation_type ActivationType.SIGMOID then
    Ok Sigmoid
  else if py_eq activation_type ActivationType.NONE then
    Ok Identity
  else
    Raise (NotImplementedError
             ("Activation type " +:+ py_str ActivationType.str activation_type
              +:+ " is not implemented.")).

Section Constructors.
Context `{LayerCtor}.

(** [ConvBlock.__init__]: the normalization layer is selected and
    constructed first, then the activation layer, then the convolution,
    and the [nn.Sequential] is assembled from these three objects. An
    exception of a selector or of a constructor ends the call. *)
Definition ConvBlock_init (in_channels out_channels kernel_size stride padding : Z)
    (normalization_type : arg NormalizationType.t)
    (padding_type : PaddingType.t)
    (activation_type : arg ActivationType.t)
    (bias : bool) : M Torch (Module_ LayerObject) :=
  let norm_dim := out_channels in
  norm ← lift (_normalization_selector norm_dim normalization_type);
  norm_object ← construct norm;
  let normalization_layer := Builtin norm norm_object in
  act ← lift (_activation_layer_selector activation_type);
  act_object ← construct act;
  let _activation_layer := Builtin act act_object in
  let conv := Conv2d in_channels out_channels kernel_size stride padding
                     (PaddingType.value padding_type) bias in
  conv_object ← construct conv;
  mret (ConvBlock norm_dim normalization_layer _activation_layer
          (Sequential [Builtin conv conv_object; normalization_layer; _activation_layer])).

(** The [while] loop of [ConvBlocks.__init__]. [layers] is [self.layers]
    so far; [None] means the iteration budget [fuel] ran out. *)
Fixpoint ConvBlocks_loop (fuel : nat) (layer_multiplier max_layer_multiplier : Z)
    (kernel_size stride padding : Z) (padding_type : PaddingType.t)
    (normalization_type : arg NormalizationType.t)
    (activation_type : arg ActivationType.t)
    (layers : list (Module_ LayerObject)) (torch : Torch)
    : option (result (list (Module_ LayerObject)) * Torch) :=
  match fuel with
  | O => None
  | S fuel' =>
      if layer_multiplier <? max_layer_multiplier then
        match ConvBlock_init layer_multiplier (layer_multiplier * 2)
                kernel_size stride padding
                normalization_type padding_type activation_type true torch with
        | (Ok cb, torch') =>
            ConvBlocks_loop fuel' (layer_multiplier * 2) max_layer_multiplier
              kernel_size stride padding padding_type
              normalization_type activation_type (layers ++ [cb]) torch'
        | (Raise e, torch') => Some (Raise e, torch')
        end
      else Some (Ok layers, torch)
  end.

(** [ConvBlocks.__init__]. *)
Definition ConvBlocks_init (fuel : nat) (layer_multiplier max_layer_multiplier : Z)
    (kernel_size stride padding : Z) (padding_type : PaddingType.t)
    (normalization_type : arg NormalizationType.t)
    (activation_type : arg ActivationType.t) (torch : Torch)
    : option (result (Module_ LayerObject) * Torch) :=
  match ConvBlocks_loop fuel layer_multiplier max_layer_multiplier
          kernel_size stride padding padding_type
          normalization_type activation_type [] torch with
  | None => None
  | Some (Ok layers, torch') => Some (Ok (ConvBlocks layers (Sequential layers)), torch')
  | Some (Raise e, torch') => Some (Raise e, torch')
  end.

(** [ResBlock.__init__]. *)
Definition ResBlock_init (channels kernel_size stride padding : Z)
    (normalization_type : arg NormalizationType.t)
    (padding_type : PaddingType.t)
    (activation_type : arg ActivationType.t) : M Torch (Module_ LayerObject) :=
  cb1 ← ConvBlock_init channels channels kernel_size stride padding
          normalization_type padding_type activation_type true;
  cb2 ← ConvBlock_init channels channels kernel_size stride padding
          normalization_type padding_type (Member ActivationType.NONE) true;
  mret (ResBlock (Sequential [cb1; cb2])).

(** The [for _ in range(num_blocks)] loop of [ResBlocks.__init__], with
    [ResBlock]'s defaults kernel_size=3, stride=1, padding=1. *)
Fixpoint ResBlocks_loop (n : nat) (channels : Z)
    (normalization_type : arg NormalizationType.t)
    (padding_type : PaddingType.t)
    (activation_type : arg ActivationType.t)
    (layers : list (Module_ LayerObject)) : M Torch (list (Module_ LayerObject)) :=
  match n with
  | O => mret layers
  | S n' =>
      rb ← ResBlock_init channels 3 1 1 normalization_type padding_type activation_type;
      ResBlocks_loop n' channels normalization_type padding_type activation_type
        (layers ++ [rb])
  end.

(** [ResBlocks.__init__]; [range] of a non-positive count is empty. *)
Definition ResBlocks_init (channels num_blocks : Z)
    (normalization_type : arg NormalizationType.t)
    (padding_type : PaddingType.t)
    (activation_type : arg ActivationType.t) : M Torch (Module_ LayerObject) :=
  layers ← ResBlocks_loop (Z.to_nat num_blocks) channels
             normalization_type padding_type activation_type [];
  mret (ResBlocks layers (Sequential layers)).

End Constructors.

(** [forward] of every module class. [nn.Sequential] feeds each child the
    output of the previous one. In-place activations overwrite only the
    fresh output of the convolution before them, never the block's input,
    so values suffice. *)
Fixpoint forward `{TensorOps} (m : Module_ LayerObject) (x : Tensor) : result Tensor :=
  let chain := fix chain (ms : list (Module_ LayerObject)) (x : Tensor) : result Tensor :=
    match ms with
    | [] => Ok x
    | m' :: ms' => y ← forward m' x; chain ms' y
    end in
  match m with
  | Builtin l object => layer_forward l object x
  | Sequential children => chain children x
  | ConvBlock _ _ _ model => forward model x
  | ConvBlocks _ model => forward model x
  | ResBlock model => y ← forward model x; tensor_add y x
  | ResBlocks _ model => forward model x
  end.

End blocks.

(** ** img2img/models/pix2pix/utils.py *)

(** The constants of [img2img.cfg] that utils.py reads. The module is not
    among the sources, so they are parameters. *)
Class Cfg : Type := {
  Device : Type;
  Scalar : Type;
  DEVICE : Device;
  NORM_STD : Scalar;
  NORM_MEAN : Scalar
}.

(** Tensor operations of the framework used by utils.py. [trace_graph f x]
    is the tracing of a module, given as its forward function [f], on the
    input [x] that [SummaryWriter.add_graph] performs: it runs the module,
    and yields the outcome together with the lines it printed. *)
Class VisionOps `{TensorOps} `{Cfg} : Type := {
  tensor_mul_scalar : Tensor -> Scalar -> result Tensor;
  tensor_add_scalar : Tensor -> Scalar -> result Tensor;
  tensor_to : Tensor -> Device -> result Tensor;
  torch_cat : list Tensor -> Z -> result Tensor;
  make_grid : Tensor -> Z -> Z -> result Tensor;
  trace_graph : (Tensor -> result Tensor) -> Tensor -> result unit * list string
}.

(** One [save_image(tensor, fp, nrow=, padding=)] call. *)
Record SavedImage `{TensorOps} : Type := {
  fp : Path;
  image : Tensor;
  nrow : Z;
  img_padding : Z
}.

(** One call on the tensorboard [SummaryWriter]. *)
Inductive WriterEvent `{TensorOps} : Type :=
| add_graph (input : Tensor)
| add_image (tag : string) (img : Tensor).

(** What the visualisation functions act on: the generator's
    [training] flag, the image files written so far (oldest first), the
    writer's log and the console. *)
Record World `{TensorOps} : Type := {
  training : bool;
  files : list SavedImage;
  writer : list WriterEvent;
  stdout : list string
}.

(** [optim.Optimizer]: the attribute [param_groups], a list of
    dictionaries that the code updates in place, and everything else the
    object holds. *)
Record Optimizer (V R : Type) : Type := {
  param_groups : list (gmap string V);
  opt_rest : R
}.
Arguments param_groups {V R} o.
Arguments opt_rest {V R} o.

(** The framework's side of checkpointing. [StateDict] is the type of the
    objects that [state_dict()] returns and that a checkpoint dictionary
    holds; [Val] is the type of the values of a parameter group, the
    learning rate among them. [load_state_dict] works on the object in
    place, so each call gives its outcome together with the object as the
    call left it, also when it raises; [torch.save] likewise gives the file
    system as it left it. *)
Class CheckpointOps `{Cfg} : Type := {
  Model : Type;
  Val : Type;
  ORest : Type;
  StateDict : Type;
  Disk : Type;
  model_state_dict : Model -> StateDict;
  model_load_state_dict : Model -> StateDict -> result unit * Model;
  optimizer_state_dict : Optimizer Val ORest -> StateDict;
  optimizer_load_state_dict :
    Optimizer Val ORest -> StateDict -> result unit * Optimizer Val ORest;
  torch_save : gmap string StateDict -> Path -> Disk -> result unit * Disk;
  torch_load : Path -> Device -> Disk -> result (gmap string StateDict)
}.

(** What the checkpoint functions act on: the module and the optimizer
    passed to them, the file system and the console. *)
Record CkWorld `{CheckpointOps} : Type := {
  ck_model : Model;
  ck_optimizer : Optimizer Val ORest;
  ck_disk : Disk;
  ck_stdout : list string
}.

Module utils.

Section Visualisation.
Context `{VisionOps}.

(** [gen.eval()] and [gen.train()]. *)
Definition set_training (b : bool) : M World unit :=
  modify (fun w => {| training := b; files := files w;
                      writer := writer w; stdout := stdout w |}).

Definition save_image (t : Tensor) (p : Path) (nrow padding : Z) : M World unit :=
  modify (fun w => {| training := training w;
                      files := files w ++
                        [{| fp := p; image := t; nrow := nrow; img_padding := padding |}];
                      writer := writer w; stdout := stdout w |}).

Definition writer_log (e : WriterEvent) : M World unit :=
  modify (fun w => {| training := training w; files := files w;
                      writer := writer w ++ [e]; stdout := stdout w |}).

Definition print (s : string) : M World unit :=
  modify (fun w => {| training := training w; files := files w;
                      writer := writer w; stdout := stdout w ++ [s] |}).

(** Several lines printed at once. *)
Definition print_all (lines : list string) : M World unit :=
  modify (fun w => {| training := training w; files := files w;
                      writer := writer w; stdout := stdout w ++ lines |}).

(** [writer.add_graph(gen, x)]: the writer traces the generator in
    evaluation mode on [x]; what the tracing prints goes to the console;
    the graph is logged when the tracing succeeds, and its exception is
    raised again when it fails. *)
Definition writer_add_graph (gen : bool -> Tensor -> result Tensor) (x : Tensor)
    : M World unit :=
  let traced := trace_graph (gen false) x in
  print_all traced.2;;
  match traced.1 with
  | Ok _ => writer_log (add_graph x)
  | Raise e => lift (Raise e)
  end.

(** [gen(x)]: the generator's output depends on the mode it is in. *)
Definition call_gen (gen : bool -> Tensor -> result Tensor) (x : Tensor)
    : M World Tensor :=
  mode ← gets training; lift (gen mode x).

(** [next(iter(val_loader))]. *)
Definition next_iter {A} (loader : list A) : result A :=
  match loader with
  | [] => Raise StopIteration
  | b :: _ => Ok b
  end.

Definition remove_normalization (x : Tensor) : result Tensor :=
  t ← tensor_mul_scalar x NORM_STD; tensor_add_scalar t NORM_MEAN.

Definition save_some_examples (gen : bool -> Tensor -> result Tensor)
    (val_loader : list (Tensor * Tensor)) (epoch : Z) (folder : Path)
    : M World unit :=
  set_training false;;
  xy ← lift (next_iter val_loader);
  x ← lift (tensor_to xy.1 DEVICE);
  y ← lift (tensor_to xy.2 DEVICE);
  (if epoch =? 0 then
     writer_add_graph gen x;;
     y' ← lift (remove_normalization y);
     save_image y' (path_div folder ("label_" +:+ pretty epoch +:+ ".png")) 4 0
   else mret tt);;
  y_fake ← call_gen gen x;
  y_fake ← lift (remove_normalization y_fake);
  x ← lift (remove_normalization x);
  x_concat ← lift (torch_cat [x; y_fake] 3);
  save_image x_concat (path_div folder ("sample_" +:+ pretty epoch +:+ ".png")) 4 0;;
  img_grid ← lift (make_grid x_concat 4 0);
  writer_log (add_image ("test_image epoch=" +:+ pretty epoch) img_grid);;
  set_training true.

(** The body of the [for idx, (x, y) in enumerate(val_loader)] loop
    followed by the remaining iterations. *)
Fixpoint evaluate_loop (gen : bool -> Tensor -> result Tensor)
    (folder : Path) (idx : Z) (batches : list (Tensor * Tensor))
    : M World unit :=
  match batches with
  | [] => mret tt
  | xy :: rest =>
      x ← lift (tensor_to xy.1 DEVICE);
      y ← lift (tensor_to xy.2 DEVICE);
      y_fake ← call_gen gen x;
      y_fake ← lift (remove_normalization y_fake);
      x ← lift (remove_normalization x);
      y_concat ← lift (torch_cat [y; y_fake] 3);
      print ("Saving " +:+ pretty idx +:+ " image");;
      save_image y_concat (path_div folder ("val_" +:+ pretty idx +:+ ".png")) 4 0;;
      evaluate_loop gen folder (idx + 1) rest
  end.

Definition evaluate_val_set (gen : bool -> Tensor -> result Tensor)
    (val_loader : list (Tensor * Tensor)) (folder : Path) : M World unit :=
  set_training false;;
  evaluate_loop gen folder 0 val_loader;;
  set_training true.

End Visualisation.

Section Checkpoint.
Context `{CheckpointOps}.

Definition ck_print (s : string) : M CkWorld unit :=
  modify (fun w => {| ck_model := ck_model w; ck_optimizer := ck_optimizer w;
                      ck_disk := ck_disk w; ck_stdout := ck_stdout w ++ [s] |}).

Definition set_model (m : Model) : M CkWorld unit :=
  modify (fun w => {| ck_model := m; ck_optimizer := ck_optimizer w;
                      ck_disk := ck_disk w; ck_stdout := ck_stdout w |}).

Definition set_optimizer (o : Optimizer Val ORest) : M CkWorld unit :=
  modify (fun w => {| ck_model := ck_model w; ck_optimizer := o;
                      ck_disk := ck_disk w; ck_stdout := ck_stdout w |}).

Definition set_disk (d : Disk) : M CkWorld unit :=
  modify (fun w => {| ck_model := ck_model w; ck_optimizer := ck_optimizer w;
                      ck_disk := d; ck_stdout := ck_stdout w |}).

(** [d[key]] on a dictionary. *)
Definition getitem {A} (d : gmap string A) (key : string) : result A :=
  match d !! key with
  | Some a => Ok a
  | None => Raise (KeyError key)
  end.

Definition save_checkpoint (filename : Path) : M CkWorld unit :=
  ck_print "=> Saving checkpoint";;
  model ← gets ck_model;
  optimizer ← gets ck_optimizer;
  let checkpoint : gmap string StateDict :=
    <["optimizer" := optimizer_state_dict optimizer]>
      (<["state_dict" := model_state_dict model]> ∅) in
  disk ← gets ck_disk;
  let saved := torch_save checkpoint filename disk in
  set_disk saved.2;;
  lift saved.1.

(** [model.load_state_dict(state_dict)]. *)
Definition model_load (state_dict : StateDict) : M CkWorld unit :=
  model ← gets ck_model;
  let loaded := model_load_state_dict model state_dict in
  set_model loaded.2;;
  lift loaded.1.

(** [optimizer.load_state_dict(state_dict)]. *)
Definition optimizer_load (state_dict : StateDict) : M CkWorld unit :=
  optimizer ← gets ck_optimizer;
  let loaded := optimizer_load_state_dict optimizer state_dict in
  set_optimizer loaded.2;;
  lift loaded.1.

(** The loop [for param_group in optimizer.param_groups:
    param_group["lr"] = lr], one dictionary at a time. *)
Fixpoint set_lr_groups (lr : Val) (groups : list (gmap string Val))
    : list (gmap string Val) :=
  match groups with
  | [] => []
  | param_group :: rest => <["lr" := lr]> param_group :: set_lr_groups lr rest
  end.

Definition set_lr (lr : Val) : M CkWorld unit :=
  optimizer ← gets ck_optimizer;
  set_optimizer {| param_groups := set_lr_groups lr (param_groups optimizer);
                   opt_rest := opt_rest optimizer |}.

Definition load_checkpoint (checkpoint_file : Path) (lr : Val) : M CkWorld unit :=
  ck_print "=> Loading checkpoint";;
  disk ← gets ck_disk;
  checkpoint ← lift (torch_load checkpoint_file DEVICE disk);
  sd ← lift (getitem checkpoint "state_dict");
  model_load sd;;
  osd ← lift (getitem checkpoint "optimizer");
  optimizer_load osd;;
  set_lr lr.

End Checkpoint.

End utils.

(** ** The layer mapping, as the specification words it *)

(** Normalization: BATCH gives [BatchNorm2d(out_channels)], INSTANCE gives
    [InstanceNorm2d(out_channels)], LAYER gives [LayerNorm(out_channels)],
    NONE gives [Identity]. *)
Definition spec_normalization (n : NormalizationType.t) (out_channels : Z) : Layer :=
  match n with
  | NormalizationType.BATCH => BatchNorm2d out_channels
  | NormalizationType.INSTANCE => InstanceNorm2d out_channels
  | NormalizationType.LAYER => LayerNorm out_channels
  | NormalizationType.NONE => Identity
  end.

(** Activation: RELU gives [ReLU], LEAKY_RELU gives [LeakyReLU] with slope
    0.2, TANH gives [Tanh], SIGMOID gives [Sigmoid], NONE gives [Identity]. *)
Definition spec_activation (a : ActivationType.t) : Layer :=
  match a with
  | ActivationType.RELU => ReLU true
  | ActivationType.LEAKY_RELU => LeakyReLU (Qmake 2 10) true
  | ActivationType.TANH => Tanh
  | ActivationType.SIGMOID => Sigmoid
  | ActivationType.NONE => Identity
  end.

(** The block a [ConvBlock(...)] call returns when both selectors are
    given members of their enums, for the three objects that the layer
    constructors produced. The [nn.Sequential] holds the very objects that
    the attributes hold. *)
Definition conv_block `{TensorOps}
    (in_channels out_channels kernel_size stride padding : Z)
    (n : NormalizationType.t) (pt : PaddingType.t) (a : ActivationType.t)
    (bias : bool) (conv_object norm_object act_object : LayerObject)
    : Module_ LayerObject :=
  ConvBlock out_channels
    (Builtin (spec_normalization n out_channels) norm_object)
    (Builtin (spec_activation a) act_object)
    (Sequential
       [Builtin (Conv2d in_channels out_channels kernel_size stride padding
                        (PaddingType.value pt) bias) conv_object;
        Builtin (spec_normalization n out_channels) norm_object;
        Builtin (spec_activation a) act_object]).

Definition is_conv_block `{TensorOps}
    (in_channels out_channels kernel_size stride padding : Z)
    (n : NormalizationType.t) (pt : PaddingType.t) (a : ActivationType.t)
    (bias : bool) (m : Module_ LayerObject) : Prop :=
  exists conv_object norm_object act_object : LayerObject,
    m = conv_block in_channels out_channels kernel_size stride padding n pt a bias
          conv_object norm_object act_object.


(** [in_channels] and [out_channels] of the convolution a block starts with. *)
Definition block_channels {I} (m : Module_ I) : option (Z * Z) :=
  match m with
  | ConvBlock _ _ _ (Sequential (Builtin (Conv2d i o _ _ _ _ _) _ :: _)) => Some (i, o)
  | _ => None
  end.


(** The sample image as the specification words it: the denormalized
    input batch next to the denormalized generator output, joined along
    dimension 3 (the width of a batch of images). *)
Definition spec_sample `{VisionOps} (gen : bool -> Tensor -> result Tensor)
    (x : Tensor) : result Tensor :=
  y_fake ← gen false x;
  output ← utils.remove_normalization y_fake;
  input ← utils.remove_normalization x;
  torch_cat [input; output] 3.

(** Partial correctness of a computation: what holds of its value and of
    the world whenever it returns normally. *)
Definition returns {W A} (m : M W A) (Q : A -> W -> Prop) : Prop :=
  forall (w : W) (a : A) (w' : W), m w = (Ok a, w') -> Q a w'.

(** What a computation keeps true of the world, however it ends. *)
Definition preserves {W A} (I : W -> Prop) (m : M W A) : Prop :=
  forall (w : W) (r : result A) (w' : W), I w -> m w = (r, w') -> I w'.

(** What a computation started under [I] leaves true when it raises. *)
Definition on_raise {W A} (I : W -> Prop) (m : M W A) : Prop :=
  forall (w : W) (e : exn) (w' : W), I w -> m w = (Raise e, w') -> I w'.

(** The image [evaluate_val_set] saves for one batch: the ground truth as
    it comes from the loader next to the denormalized generator output,
    joined along dimension 3. *)
Definition spec_val_image `{VisionOps} (gen : bool -> Tensor -> result Tensor)
    (batch : Tensor * Tensor) : result Tensor :=
  x ← tensor_to batch.1 DEVICE;
  y ← tensor_to batch.2 DEVICE;
  y_fake ← gen false x;
  output ← utils.remove_normalization y_fake;
  torch_cat [y; output] 3.

(** The files [val_{idx}.png], [val_{idx+1}.png], ... for a list of images. *)
Fixpoint val_files `{TensorOps} (folder : Path) (idx : Z) (images : list Tensor)
    : list SavedImage :=
  match images with
  | [] => []
  | img :: rest =>
      {| fp := path_div folder ("val_" +:+ pretty idx +:+ ".png");
         image := img; nrow := 4; img_padding := 0 |}
      :: val_files folder (idx + 1) rest
  end.

(** The console lines ["Saving {idx} image"] for [count] batches. *)
Fixpoint val_lines (idx : Z) (count : nat) : list string :=
  match count with
  | O => []
  | S count' => ("Saving " +:+ pretty idx +:+ " image") :: val_lines (idx + 1) count'
  end.

(** ** A small executable framework

    Tensors are lists of integers; it serves to run the embedded code on
    concrete inputs. *)

Module Toy.

(** Layer objects are numbered in the order of their construction, and
    a convolution adds its number to every entry, so that two layers built
    by the same call differ. *)
Definition tensor_ops : TensorOps := {|
  Tensor := list Z;
  LayerObject := nat;
  layer_forward l object x :=
    match l with
    | Conv2d _ _ k _ p _ _ => Ok ((fun v => v * k + p + Z.of_nat object) <$> x)
    | ReLU _ => Ok (Z.max 0 <$> x)
    | LeakyReLU _ _ => Ok ((fun v => if v <? 0 then v / 5 else v) <$> x)
    | _ => Ok x
    end;
  tensor_add x y :=
    if bool_decide (length x = length y)
    then Ok (zip_with Z.add x y)
    else Raise (FrameworkError 1)
|}.

(** The argument checks of the constructors, in the way of the
    deep-learning framework: a convolution accepts the padding modes
    [zeros], [reflect], [replicate] and [circular] only ([ValueError]
    otherwise), and a layer that allocates parameters of a negative size
    fails with [RuntimeError]. *)
Definition check (l : Layer) : result unit :=
  match l with
  | Conv2d i o _ _ _ mode _ =>
      if bool_decide (mode ∈ ["zeros"; "reflect"; "replicate"; "circular"]%string)
      then if bool_decide (0 <= i /\ 0 <= o) then Ok tt
           else Raise (RuntimeError "Trying to create tensor with negative dimension")
      else Raise (ValueError "padding_mode must be one of ['zeros', 'reflect', 'replicate', 'circular']")
  | BatchNorm2d n | LayerNorm n =>
      if bool_decide (0 <= n) then Ok tt
      else Raise (RuntimeError "Trying to create tensor with negative dimension")
  | _ => Ok tt
  end.

(** The framework's state is the number of objects constructed so far. *)
Definition construct (l : Layer) (count : nat) : result nat * nat :=
  match check l with
  | Ok _ => (Ok count, S count)
  | Raise e => (Raise e, count)
  end.

Definition layer_ctor : @LayerCtor tensor_ops :=
  @Build_LayerCtor tensor_ops nat construct.

Definition ConvBlock_init := @blocks.ConvBlock_init tensor_ops layer_ctor.
Definition ConvBlocks_init := @blocks.ConvBlocks_init tensor_ops layer_ctor.
Definition ResBlock_init := @blocks.ResBlock_init tensor_ops layer_ctor.
Definition ResBlocks_init := @blocks.ResBlocks_init tensor_ops layer_ctor.
Definition forward := @blocks.forward tensor_ops.

Definition cfg : Cfg := {|
  Device := unit;
  Scalar := Z;
  DEVICE := tt;
  NORM_STD := 2;
  NORM_MEAN := 1
|}.

(** Tracing runs the module once; a [RuntimeError] is printed, followed
    by a second line, before it is raised again, any other exception
    passes silently. *)
Definition trace (f : list Z -> result (list Z)) (x : list Z)
    : result unit * list string :=
  match f x with
  | Ok _ => (Ok tt, [])
  | Raise (RuntimeError msg) =>
      (Raise (RuntimeError msg), [msg; "Error occurs, No graph saved"%string])
  | Raise e => (Raise e, [])
  end.

Definition vision_ops : @VisionOps tensor_ops cfg := {|
  tensor_mul_scalar (x : @Tensor tensor_ops) (c : @Scalar cfg) := Ok ((fun v => v * c) <$> x);
  tensor_add_scalar (x : @Tensor tensor_ops) (c : @Scalar cfg) := Ok ((fun v => v + c) <$> x);
  tensor_to (x : @Tensor tensor_ops) _ := Ok x;
  torch_cat (xs : list (@Tensor tensor_ops)) _ := Ok (concat xs);
  make_grid (x : @Tensor tensor_ops) _ _ := Ok x;
  trace_graph := trace
|}.

(** A generator: it negates in evaluation mode and fails in training mode. *)
Definition gen (mode : bool) (x : list Z) : result (list Z) :=
  if mode then Raise (RuntimeError "gen fails") else Ok (Z.opp <$> x).

Definition saved (p : string) (t : list Z) : @SavedImage tensor_ops :=
  @Build_SavedImage tensor_ops (MkPath p) t 4 0.

Definition graph_event (x : list Z) : @WriterEvent tensor_ops :=
  @add_graph tensor_ops x.

Definition image_event (tag : string) (t : list Z) : @WriterEvent tensor_ops :=
  @add_image tensor_ops tag t.

Definition world_with (mode : bool) (fs : list (@SavedImage tensor_ops))
    (evs : list (@WriterEvent tensor_ops)) (out : list string) : @World tensor_ops :=
  @Build_World tensor_ops mode fs evs out.

(** A world in which nothing has been written yet. *)
Definition world (mode : bool) : @World tensor_ops := world_with mode [] [] [].

(** A state dictionary is that of a module (its parameters) or that of
    an optimizer. *)
Inductive state_dict : Type :=
| ModuleState (params : list Z)
| OptimizerState (o : Optimizer Z (list Z)).

Abbreviation checkpoint := (gmap string state_dict).

(** The disk is flat: a list of file names with the checkpoint written to
    each, newest first. *)
Fixpoint disk_lookup (name : string) (d : list (string * checkpoint))
    : option checkpoint :=
  match d with
  | [] => None
  | (n, c) :: d' => if String.eqb n name then Some c else disk_lookup name d'
  end.

(** A module is its vector of parameters. Loading copies the entries that
    the module and the state have in common, and then fails when their
    sizes differ: the module is left half-loaded. *)
Definition module_load (m : list Z) (sd : state_dict) : result unit * list Z :=
  match sd with
  | ModuleState params =>
      if bool_decide (length m = length params) then (Ok tt, params)
      else (Raise (RuntimeError "Error(s) in loading state_dict: size mismatch"),
            take (length m) params ++ drop (length params) m)
  | OptimizerState _ =>
      (Raise (RuntimeError "Error(s) in loading state_dict: Missing key(s)"), m)
  end.

(** An optimizer loads only a state with as many parameter groups as it
    has, and is untouched otherwise. *)
Definition optim_load (o : Optimizer Z (list Z)) (sd : state_dict)
    : result unit * Optimizer Z (list Z) :=
  match sd with
  | OptimizerState s =>
      if bool_decide (length (param_groups o) = length (param_groups s)) then (Ok tt, s)
      else (Raise (ValueError
                     "loaded state dict has a different number of parameter groups"), o)
  | ModuleState _ => (Raise (KeyError "param_groups"), o)
  end.

(** Saving needs a plain file name; no file is written otherwise. *)
Definition disk_save (c : checkpoint) (f : Path) (d : list (string * checkpoint))
    : result unit * list (string * checkpoint) :=
  if bool_decide (length (path_parts (path_literal f)) = 1%nat)
  then (Ok tt, (path_literal f, c) :: d)
  else (Raise (RuntimeError "Parent directory does not exist."), d).

Definition checkpoint_ops : @CheckpointOps cfg := {|
  Model := list Z;
  Val := Z;
  ORest := list Z;
  StateDict := state_dict;
  Disk := list (string * checkpoint);
  model_state_dict m := ModuleState m;
  model_load_state_dict := module_load;
  optimizer_state_dict o := OptimizerState o;
  optimizer_load_state_dict := optim_load;
  torch_save := disk_save;
  torch_load f _ d :=
    match disk_lookup (path_literal f) d with
    | Some c => Ok c
    | None => Raise (FrameworkError 5)
    end
|}.

Definition model1 : list Z := [7; 8].
Definition model2 : list Z := [0; 0].

Definition optimizer1 : Optimizer Z (list Z) :=
  {| param_groups := [<["lr" := 2]> (<["betas" := 9]> ∅)]; opt_rest := [5] |}.
Definition optimizer2 : Optimizer Z (list Z) :=
  {| param_groups := [<["lr" := 1]> ∅]; opt_rest := [] |}.

Definition ck_world (m : list Z) (o : Optimizer Z (list Z))
    (d : list (string * checkpoint)) (out : list string)
    : @CkWorld cfg checkpoint_ops :=
  @Build_CkWorld cfg checkpoint_ops m o d out.

(** The utilities of utils.py over this framework. *)
Definition save_some_examples := @utils.save_some_examples tensor_ops cfg vision_ops.
Definition evaluate_val_set := @utils.evaluate_val_set tensor_ops cfg vision_ops.
Definition save_checkpoint := @utils.save_checkpoint cfg checkpoint_ops.
Definition load_checkpoint (checkpoint_file : Path) (lr : Z) :=
  @utils.load_checkpoint cfg checkpoint_ops checkpoint_file lr.

(** The checkpoint of the first module and optimizer. *)
Definition checkpoint1 : checkpoint :=
  <["optimizer" := OptimizerState optimizer1]> (<["state_dict" := ModuleState model1]> ∅).

(** The world after they were saved to [gen.pth]. *)
Definition saved_world : @CkWorld cfg checkpoint_ops :=
  ck_world model1 optimizer1 [("gen.pth"%string, checkpoint1)]
    ["=> Saving checkpoint"%string].

(** A second module and optimizer, next to the file just written. *)
Definition fresh_world : @CkWorld cfg checkpoint_ops :=
  ck_world model2 optimizer2 [("gen.pth"%string, checkpoint1)] [].

(** The second module and optimizer after loading [gen.pth] with rate 3. *)
Definition loaded_world : @CkWorld cfg checkpoint_ops :=
  ck_world model1
    {| param_groups := [<["lr" := 3]> (<["lr" := 2]> (<["betas" := 9]> ∅))];
       opt_rest := [5] |}
    [("gen.pth"%string, checkpoint1)] ["=> Loading checkpoint"%string].

(** One validation batch of two pixels. *)
Definition val_loader : list (list Z * list Z) := [([1; 2], [3; 4])].

(** A generator that fails in either mode. *)
Definition failing_gen (mode : bool) (x : list Z) : result (list Z) :=
  Raise (RuntimeError "gen fails").

(** A checkpoint that lacks the optimizer state, and one that is empty,
    each in a file next to the second module and optimizer. *)
Definition checkpoint_model_only : checkpoint :=
  <["state_dict" := ModuleState model1]> ∅.

Definition world_model_only : @CkWorld cfg checkpoint_ops :=
  ck_world model2 optimizer2 [("gen.pth"%string, checkpoint_model_only)] [].

Definition world_empty_checkpoint : @CkWorld cfg checkpoint_ops :=
  ck_world model2 optimizer2 [("gen.pth"%string, (∅ : checkpoint))] [].

(** A module with one parameter more than the saved one, next to the
    file. *)
Definition model3 : list Z := [0; 0; 0].

Definition world_larger_model : @CkWorld cfg checkpoint_ops :=
  ck_world model3 optimizer2 [("gen.pth"%string, checkpoint1)] [].

End Toy.

(** * Properties *)

(** ** Reasoning about computations *)

Lemma bind_ok_inv {W A B} (m : M W A) (k : A -> M W B) (w : W) (b : B) (w' : W) :
  (m ≫= k) w = (Ok b, w') ->
  exists (a : A) (w1 : W), m w = (Ok a, w1) /\ k a w1 = (Ok b, w').
Proof.
  unfold mbind, M_bind. destruct (m w) as [[a | e] w1]; intros Hk.
  - exists a, w1. split; [reflexivity | exact Hk].
  - discriminate Hk.
Qed.

Lemma lift_ok_inv {W A} (r : result A) (w : W) (a : A) (w' : W) :
  lift r w = (Ok a, w') -> r = Ok a /\ w' = w.
Proof. unfold lift. intros Heq. injection Heq as -> ->. split; reflexivity. Qed.

Lemma returns_bind {W A B} (m : M W A) (k : A -> M W B) (Q : B -> W -> Prop) :
  (forall a : A, returns (k a) Q) -> returns (m ≫= k) Q.
Proof.
  intros Hk w b w' Hrun.
  apply bind_ok_inv in Hrun as (a & w1 & _ & Hrun). exact (Hk a w1 b w' Hrun).
Qed.

Lemma bind_run {W A B} (m : M W A) (k : A -> M W B) (w w1 : W) (a : A) :
  m w = (Ok a, w1) -> (m ≫= k) w = k a w1.
Proof. intros Hm. unfold mbind, M_bind. rewrite Hm. reflexivity. Qed.

Lemma bind_raise {W A B} (m : M W A) (k : A -> M W B) (w w1 : W) (e : exn) :
  m w = (Raise e, w1) -> (m ≫= k) w = (Raise e, w1).
Proof. intros Hm. unfold mbind, M_bind. rewrite Hm. reflexivity. Qed.

(** ** Layer selection *)

Lemma normalization_selector_member (norm_dim : Z) (n : NormalizationType.t) :
  blocks._normalization_selector norm_dim (Member n)
  = Ok (spec_normalization n norm_dim).
Proof. destruct n; reflexivity. Qed.

Lemma activation_selector_member (a : ActivationType.t) :
  blocks._activation_layer_selector (Member a) = Ok (spec_activation a).
Proof. destruct a; reflexivity. Qed.

Section Construction.
Context `{LC : LayerCtor}.

(** A [ConvBlock] call on members returns exactly when the three
    constructors accept, in the order normalization, activation,
    convolution, and the block is made of the three objects. *)
Lemma ConvBlock_init_member_inv (i o k s p : Z) (n : NormalizationType.t)
    (pt : PaddingType.t) (a : ActivationType.t) (bias : bool)
    (torch torch' : Torch) (block : Module_ LayerObject) :
  blocks.ConvBlock_init i o k s p (Member n) pt (Member a) bias torch = (Ok block, torch') ->
  exists (norm_object act_object conv_object : LayerObject) (t1 t2 : Torch),
    construct (spec_normalization n o) torch = (Ok norm_object, t1) /\
    construct (spec_activation a) t1 = (Ok act_object, t2) /\
    construct (Conv2d i o k s p (PaddingType.value pt) bias) t2 = (Ok conv_object, torch') /\
    block = conv_block i o k s p n pt a bias conv_object norm_object act_object.
Proof.
  unfold blocks.ConvBlock_init.
  rewrite normalization_selector_member, activation_selector_member.
  intros Hrun.
  apply bind_ok_inv in Hrun as (norm & w0 & E0 & Hrun). apply lift_ok_inv in E0 as [E0 ->].
  injection E0 as <-.
  apply bind_ok_inv in Hrun as (norm_object & t1 & E1 & Hrun).
  apply bind_ok_inv in Hrun as (act & w2 & E2 & Hrun). apply lift_ok_inv in E2 as [E2 ->].
  injection E2 as <-.
  apply bind_ok_inv in Hrun as (act_object & t2 & E3 & Hrun).
  apply bind_ok_inv in Hrun as (conv_object & t3 & E4 & Hrun).
  injection Hrun as <- <-.
  exists norm_object, act_object, conv_object, t1, t2. repeat split; assumption.
Qed.



(** C1: for every member of [NormalizationType] and of [ActivationType]
    given to the [ConvBlock] constructor, the selectors choose the layer of
    the fixed mapping (BATCH: BatchNorm2d(out_channels), INSTANCE:
    InstanceNorm2d(out_channels), LAYER: LayerNorm(out_channels), NONE:
    Identity; RELU: ReLU, LEAKY_RELU: LeakyReLU with slope 0.2, TANH: Tanh,
    SIGMOID: Sigmoid, NONE: Identity), and every block that the
    constructor returns holds exactly these two layers. *)
Theorem ConvBlock_layers_by_enum (in_channels out_channels kernel_size stride padding : Z)
    (n : NormalizationType.t) (pt : PaddingType.t) (a : ActivationType.t)
    (bias : bool) :
  blocks._normalization_selector out_channels (Member n)
    = Ok (spec_normalization n out_channels) /\
  blocks._activation_layer_selector (Member a) = Ok (spec_activation a) /\
  forall (torch torch' : Torch) (block : Module_ LayerObject),
    blocks.ConvBlock_init in_channels out_channels kernel_size stride padding
      (Member n) pt (Member a) bias torch = (Ok block, torch') ->
    exists (norm_object act_object : LayerObject) (model : Module_ LayerObject),
      block = ConvBlock out_channels
                (Builtin (spec_normalization n out_channels) norm_object)
                (Builtin (spec_activation a) act_object) model.
Proof.
  split; [apply normalization_selector_member |].
  split; [apply activation_selector_member |].
  intros torch torch' block Hrun.
  apply ConvBlock_init_member_inv in Hrun
    as (norm_object & act_object & conv_object & t1 & t2 & _ & _ & _ & ->).
  eexists norm_object, act_object, _. reflexivity.
Qed.

End Construction.

(** C8: on every member of [NormalizationType] the normalization selector
    returns a layer, on every member of [ActivationType] the activation
    selector returns a layer, and whenever either selector raises, its
    argument was not a member of the enum. *)
Theorem selectors_raise_only_outside_enum :
  (forall (norm_dim : Z) (n : NormalizationType.t),
      exists layer, blocks._normalization_selector norm_dim (Member n) = Ok layer) /\
  (forall a : ActivationType.t,
      exists layer, blocks._activation_layer_selector (Member a) = Ok layer) /\
  (forall (norm_dim : Z) (v : arg NormalizationType.t) (e : exn),
      blocks._normalization_selector norm_dim v = Raise e -> ~ is_member v) /\
  (forall (v : arg ActivationType.t) (e : exn),
      blocks._activation_layer_selector v = Raise e -> ~ is_member v).
Proof.
  repeat split.
  - intros d n. eexists. apply normalization_selector_member.
  - intros a. eexists. apply activation_selector_member.
  - intros d [n | s f] e Hr Hm; [| exact Hm].
    rewrite normalization_selector_member in Hr. discriminate Hr.
  - intros [a | s f] e Hr Hm; [| exact Hm].
    rewrite activation_selector_member in Hr. discriminate Hr.
Qed.

(** The raising branches are live: an object that equals no member reaches
    them. *)
Example selectors_raise_on_foreign :
  blocks._normalization_selector 64 (Foreign "adain" (fun _ => false))
    = Raise (NotImplementedError "Normalization type adain is not implemented.") /\
  blocks._activation_layer_selector (Foreign "gelu" (fun _ => false))
    = Raise (NotImplementedError "Activation type gelu is not implemented.").
Proof. split; reflexivity. Qed.

(** ** Forward passes *)

Section Forward.
Context `{LC : LayerCtor}.

Lemma forward_conv_block (i o k s p : Z) (n : NormalizationType.t)
    (pt : PaddingType.t) (a : ActivationType.t) (bias : bool)
    (conv_object norm_object act_object : LayerObject) (x : Tensor) :
  blocks.forward (conv_block i o k s p n pt a bias conv_object norm_object act_object) x
  = (y ← layer_forward (Conv2d i o k s p (PaddingType.value pt) bias) conv_object x;
     z ← layer_forward (spec_normalization n o) norm_object y;
     layer_forward (spec_activation a) act_object z).
Proof.
  simpl.
  destruct (layer_forward (Conv2d i o k s p (PaddingType.value pt) bias) conv_object x)
    as [y | e]; simpl; [| reflexivity].
  destruct (layer_forward (spec_normalization n o) norm_object y) as [z | e]; simpl;
    [| reflexivity].
  destruct (layer_forward (spec_activation a) act_object z); reflexivity.
Qed.

(** C2: every [ConvBlock] that the constructor returns, for any channels,
    kernel size, stride, padding, normalization, padding type and
    activation, applies to any tensor, in this order, its [Conv2d] layer
    (constructed with the value of the padding-type member as
    [padding_mode]), then its selected normalization layer, then its
    selected activation layer; an error of a layer is the result. *)
Theorem ConvBlock_forward_composition
    (in_channels out_channels kernel_size stride padding : Z)
    (n : NormalizationType.t) (pt : PaddingType.t) (a : ActivationType.t)
    (bias : bool) (torch torch' : Torch) (block : Module_ LayerObject) (x : Tensor) :
  blocks.ConvBlock_init in_channels out_channels kernel_size stride padding
    (Member n) pt (Member a) bias torch = (Ok block, torch') ->
  exists conv_object norm_object act_object : LayerObject,
    block = conv_block in_channels out_channels kernel_size stride padding n pt a bias
              conv_object norm_object act_object /\
    blocks.forward block x
    = (y ← layer_forward (Conv2d in_channels out_channels kernel_size stride padding
                            (PaddingType.value pt) bias) conv_object x;
       z ← layer_forward (spec_normalization n out_channels) norm_object y;
       layer_forward (spec_activation a) act_object z).
Proof.
  intros Hrun.
  apply ConvBlock_init_member_inv in Hrun
    as (norm_object & act_object & conv_object & t1 & t2 & _ & _ & _ & ->).
  exists conv_object, norm_object, act_object.
  split; [reflexivity | apply forward_conv_block].
Qed.

Lemma ResBlock_init_member_inv (channels kernel_size stride padding : Z)
    (n : NormalizationType.t) (pt : PaddingType.t) (a : ActivationType.t)
    (torch torch' : Torch) (rb : Module_ LayerObject) :
  blocks.ResBlock_init channels kernel_size stride padding (Member n) pt (Member a) torch
    = (Ok rb, torch') ->
  exists (first second : Module_ LayerObject) (t1 : Torch),
    blocks.ConvBlock_init channels channels kernel_size stride padding
      (Member n) pt (Member a) true torch = (Ok first, t1) /\
    blocks.ConvBlock_init channels channels kernel_size stride padding
      (Member n) pt (Member ActivationType.NONE) true t1 = (Ok second, torch') /\
    rb = ResBlock (Sequential [first; second]).
Proof.
  unfold blocks.ResBlock_init. intros Hrun.
  apply bind_ok_inv in Hrun as (first & t1 & E1 & Hrun).
  apply bind_ok_inv in Hrun as (second & t2 & E2 & Hrun).
  injection Hrun as <- <-.
  exists first, second, t1. repeat split; assumption.
Qed.

(** C3: every [ResBlock] that the constructor returns, for any channels,
    kernel size, stride, padding, normalization, padding type and
    activation, has as body the sequence of two [ConvBlock]s over the same
    channel count, the first constructed with the given activation and
    the second with activation NONE, and its forward pass on [x] is
    [body(x) + x]. *)
Theorem ResBlock_forward_residual (channels kernel_size stride padding : Z)
    (n : NormalizationType.t) (pt : PaddingType.t) (a : ActivationType.t)
    (torch torch' : Torch) (rb : Module_ LayerObject) (x : Tensor) :
  blocks.ResBlock_init channels kernel_size stride padding (Member n) pt (Member a) torch
    = (Ok rb, torch') ->
  exists (first second : Module_ LayerObject) (t1 : Torch),
    blocks.ConvBlock_init channels channels kernel_size stride padding
      (Member n) pt (Member a) true torch = (Ok first, t1) /\
    blocks.ConvBlock_init channels channels kernel_size stride padding
      (Member n) pt (Member ActivationType.NONE) true t1 = (Ok second, torch') /\
    is_conv_block channels channels kernel_size stride padding n pt a true first /\
    is_conv_block channels channels kernel_size stride padding n pt
      ActivationType.NONE true second /\
    rb = ResBlock (Sequential [first; second]) /\
    blocks.forward rb x
    = (body ← (y ← blocks.forward first x; blocks.forward second y);
       tensor_add body x).
Proof.
  intros Hrun.
  apply ResBlock_init_member_inv in Hrun as (first & second & t1 & E1 & E2 & ->).
  exists first, second, t1.
  split; [exact E1 |]. split; [exact E2 |].
  pose proof E1 as E1'. pose proof E2 as E2'.
  apply ConvBlock_init_member_inv in E1'
    as (no1 & ao1 & co1 & ? & ? & _ & _ & _ & ->).
  apply ConvBlock_init_member_inv in E2'
    as (no2 & ao2 & co2 & ? & ? & _ & _ & _ & ->).
  split; [exists co1, no1, ao1; reflexivity |].
  split; [exists co2, no2, ao2; reflexivity |].
  split; [reflexivity |].
  change (blocks.forward (ResBlock (Sequential ?l)) x)
    with (y ← blocks.forward (Sequential l) x; tensor_add y x).
  f_equal.
  change (blocks.forward (Sequential [?m1; ?m2]) x)
    with (y ← blocks.forward m1 x; z ← blocks.forward m2 y; Ok z).
  destruct (blocks.forward (conv_block _ _ _ _ _ n pt a true co1 no1 ao1) x) as [y | e];
    simpl; [| reflexivity].
  destruct (layer_forward _ co2 y) as [y1 | e]; simpl; [| reflexivity].
  destruct (layer_forward _ no2 y1) as [y2 | e]; simpl; [| reflexivity].
  destruct (layer_forward _ ao2 y2); reflexivity.
Qed.

End Forward.

(** ** The doubling loop of [ConvBlocks] *)

Section DoublingLoop.
Context `{LC : LayerCtor}.
Variables (kernel_size stride padding : Z).
Variables (pt : PaddingType.t) (n : NormalizationType.t) (a : ActivationType.t).

Lemma ConvBlocks_loop_exit (fuel : nat) (c max_c : Z) (v : arg NormalizationType.t)
    (act : arg ActivationType.t) (layers : list (Module_ LayerObject)) (torch : Torch) :
  max_c <= c ->
  blocks.ConvBlocks_loop (S fuel) c max_c kernel_size stride padding pt v act layers torch
  = Some (Ok layers, torch).
Proof.
  intros Hge. simpl. destruct (Z.ltb_spec c max_c) as [Hlt | _]; [lia | reflexivity].
Qed.

Lemma ConvBlocks_loop_iterate (fuel : nat) (c max_c : Z) (v : arg NormalizationType.t)
    (act : arg ActivationType.t) (layers : list (Module_ LayerObject))
    (torch torch' : Torch) (cb : Module_ LayerObject) :
  c < max_c ->
  blocks.ConvBlock_init c (c * 2) kernel_size stride padding v pt act true torch
    = (Ok cb, torch') ->
  blocks.ConvBlocks_loop (S fuel) c max_c kernel_size stride padding pt v act layers torch
  = blocks.ConvBlocks_loop fuel (c * 2) max_c kernel_size stride padding pt v act
      (layers ++ [cb]) torch'.
Proof.
  intros Hlt Hcb. simpl. destruct (Z.ltb_spec c max_c) as [_ | Hge]; [| lia].
  rewrite Hcb. reflexivity.
Qed.

Lemma ConvBlocks_loop_raise (fuel : nat) (c max_c : Z) (v : arg NormalizationType.t)
    (act : arg ActivationType.t) (layers : list (Module_ LayerObject))
    (torch torch' : Torch) (e : exn) :
  c < max_c ->
  blocks.ConvBlock_init c (c * 2) kernel_size stride padding v pt act true torch
    = (Raise e, torch') ->
  blocks.ConvBlocks_loop (S fuel) c max_c kernel_size stride padding pt v act layers torch
  = Some (Raise e, torch').
Proof.
  intros Hlt Hcb. simpl. destruct (Z.ltb_spec c max_c) as [_ | Hge]; [| lia].
  rewrite Hcb. reflexivity.
Qed.


(** What the loop has appended when it leaves normally. *)
Lemma ConvBlocks_loop_ok_shape (max_c : Z) (fuel : nat) :
  forall (c : Z) (layers ls : list (Module_ LayerObject)) (torch torch' : Torch),
    blocks.ConvBlocks_loop fuel c max_c kernel_size stride padding pt
      (Member n) (Member a) layers torch = Some (Ok ls, torch') ->
    exists new : list (Module_ LayerObject),
      ls = layers ++ new /\
      (forall i : nat, (i < length new)%nat -> c * 2 ^ Z.of_nat i < max_c) /\
      max_c <= c * 2 ^ Z.of_nat (length new) /\
      (forall (i : nat) (b : Module_ LayerObject),
          new !! i = Some b ->
          is_conv_block (c * 2 ^ Z.of_nat i) (c * 2 ^ Z.of_nat i * 2)
            kernel_size stride padding n pt a true b).
Proof.
  induction fuel as [| fuel IH]; intros c layers ls torch torch' Hrun;
    [discriminate Hrun |].
  destruct (Z_lt_le_dec c max_c) as [Hlt | Hge].
  - destruct (blocks.ConvBlock_init c (c * 2) kernel_size stride padding
                (Member n) pt (Member a) true torch) as [[cb | e] t1] eqn:Hcb.
    + rewrite (ConvBlocks_loop_iterate _ _ _ _ _ _ _ _ _ Hlt Hcb) in Hrun.
      apply IH in Hrun as (new & -> & Hbelow & Habove & Hblocks).
      exists (cb :: new). split; [rewrite <- app_assoc; reflexivity |].
      split; [| split].
      * intros [| i] Hi; [simpl; lia |].
        rewrite Nat2Z.inj_succ, Z.pow_succ_r by lia.
        specialize (Hbelow i ltac:(simpl in Hi; lia)).
        replace (c * (2 * 2 ^ Z.of_nat i)) with (c * 2 * 2 ^ Z.of_nat i) by ring.
        exact Hbelow.
      * simpl length. rewrite Nat2Z.inj_succ, Z.pow_succ_r by lia.
        replace (c * (2 * 2 ^ Z.of_nat (length new)))
          with (c * 2 * 2 ^ Z.of_nat (length new)) by ring.
        exact Habove.
      * intros [| i] b Hb.
        -- injection Hb as <-. simpl. rewrite Z.mul_1_r.
           apply ConvBlock_init_member_inv in Hcb
             as (no & ao & co & ? & ? & _ & _ & _ & ->).
           exists co, no, ao. reflexivity.
        -- specialize (Hblocks i b Hb).
           rewrite Nat2Z.inj_succ, Z.pow_succ_r by lia.
           replace (c * (2 * 2 ^ Z.of_nat i)) with (c * 2 * 2 ^ Z.of_nat i) by ring.
           exact Hblocks.
    + rewrite (ConvBlocks_loop_raise _ _ _ _ _ _ _ _ _ Hlt Hcb) in Hrun. discriminate Hrun.
  - rewrite ConvBlocks_loop_exit in Hrun by exact Hge. injection Hrun as <- <-.
    exists []. rewrite app_nil_r. split; [reflexivity |].
    split; [intros i Hi; simpl in Hi; lia |]. split; [simpl; lia |].
    intros i b Hb. discriminate Hb.
Qed.



Lemma block_channels_conv_block (i o : Z) (b : Module_ LayerObject) :
  is_conv_block i o kernel_size stride padding n pt a true b ->
  block_channels b = Some (i, o).
Proof. intros (co & no & ao & ->). reflexivity. Qed.

Lemma ConvBlocks_init_ok_inv (fuel : nat) (c max_c : Z) (v : arg NormalizationType.t)
    (act : arg ActivationType.t) (torch torch' : Torch) (m : Module_ LayerObject) :
  blocks.ConvBlocks_init fuel c max_c kernel_size stride padding pt v act torch
    = Some (Ok m, torch') ->
  exists layers : list (Module_ LayerObject),
    m = ConvBlocks layers (Sequential layers) /\
    blocks.ConvBlocks_loop fuel c max_c kernel_size stride padding pt v act [] torch
      = Some (Ok layers, torch').
Proof.
  unfold blocks.ConvBlocks_init.
  destruct (blocks.ConvBlocks_loop fuel c max_c kernel_size stride padding pt v act []
              torch) as [[[layers | e] t1] |]; intros Hrun; try discriminate Hrun.
  injection Hrun as <- <-. exists layers. split; reflexivity.
Qed.


End DoublingLoop.

(** ** The generator's mode *)

Section Mode.
Context `{VisionOps}.

Lemma set_training_returns (b : bool) :
  returns (utils.set_training b) (fun _ w => training w = b).
Proof. intros w [] w' Heq. injection Heq as <-. reflexivity. Qed.

Lemma save_some_examples_returns_training
    (gen : bool -> Tensor -> result Tensor) (val_loader : list (Tensor * Tensor))
    (epoch : Z) (folder : Path) :
  returns (utils.save_some_examples gen val_loader epoch folder)
    (fun _ w => training w = true).
Proof.
  unfold utils.save_some_examples.
  repeat (apply returns_bind; intros ?). apply set_training_returns.
Qed.

Lemma evaluate_val_set_returns_training
    (gen : bool -> Tensor -> result Tensor) (val_loader : list (Tensor * Tensor))
    (folder : Path) :
  returns (utils.evaluate_val_set gen val_loader folder)
    (fun _ w => training w = true).
Proof.
  unfold utils.evaluate_val_set.
  repeat (apply returns_bind; intros ?). apply set_training_returns.
Qed.

(** C10: whenever [save_some_examples] or [evaluate_val_set] returns
    normally, the generator is in training mode, whatever mode it was in
    before the call: the mode of the caller is not restored. *)
Theorem utils_leave_generator_training
    (gen : bool -> Tensor -> result Tensor) (val_loader : list (Tensor * Tensor))
    (epoch : Z) (folder : Path) (w w' : World) :
  (utils.save_some_examples gen val_loader epoch folder w = (Ok tt, w') ->
   training w' = true) /\
  (utils.evaluate_val_set gen val_loader folder w = (Ok tt, w') ->
   training w' = true).
Proof.
  split; intros Hrun.
  - exact (save_some_examples_returns_training gen val_loader epoch folder w tt w' Hrun).
  - exact (evaluate_val_set_returns_training gen val_loader folder w tt w' Hrun).
Qed.

End Mode.

(** ** The files written by [save_some_examples] *)

Section Samples.
Context `{VO : VisionOps}.

Lemma modify_ok_inv {W} (f : W -> W) (w : W) (u : unit) (w' : W) :
  modify f w = (Ok u, w') -> w' = f w.
Proof. unfold modify. intros Heq. injection Heq as _ <-. reflexivity. Qed.

Lemma call_gen_ok_inv (gen : bool -> Tensor -> result Tensor) (x y : Tensor)
    (w w' : World) :
  utils.call_gen gen x w = (Ok y, w') -> gen (training w) x = Ok y /\ w' = w.
Proof.
  unfold utils.call_gen. intros Hrun.
  apply bind_ok_inv in Hrun as (mode & w1 & Hget & Hrun).
  unfold gets in Hget. injection Hget as <- <-.
  apply lift_ok_inv in Hrun. exact Hrun.
Qed.

Lemma writer_add_graph_ok_inv (gen : bool -> Tensor -> result Tensor) (x : Tensor)
    (w w' : World) (u : unit) :
  utils.writer_add_graph gen x w = (Ok u, w') ->
  training w' = training w /\ files w' = files w /\
  writer w' = writer w ++ [add_graph x].
Proof.
  unfold utils.writer_add_graph. intros Hrun.
  apply bind_ok_inv in Hrun as (u0 & w0 & E0 & Hrun). apply modify_ok_inv in E0.
  destruct (trace_graph (gen false) x).1 as [u1 | e]; [| discriminate Hrun].
  apply modify_ok_inv in Hrun. subst. repeat split; reflexivity.
Qed.

Ltac bind_inv H x w Hx :=
  apply bind_ok_inv in H as (x & w & Hx & H).

Ltac lift_inv H :=
  let Hw := fresh "Hw" in
  apply lift_ok_inv in H as [H Hw]; subst.

(** C6, as the code has it: every call of [save_some_examples] that
    returns normally (the loader then holds at least one batch) writes
    exactly one sample file, [sample_{epoch}.png], holding the denormalized
    input batch joined along the width with the denormalized generator
    output; the ground-truth file [label_0.png] is written before it, and
    the model graph is logged, exactly when [epoch] is 0. *)
Theorem save_some_examples_files
    (gen : bool -> Tensor -> result Tensor) (val_loader : list (Tensor * Tensor))
    (epoch : Z) (folder : Path) (w w' : World) :
  utils.save_some_examples gen val_loader epoch folder w = (Ok tt, w') ->
  exists (batch : Tensor * Tensor) (rest : list (Tensor * Tensor))
         (x y sample grid : Tensor),
    val_loader = batch :: rest /\
    tensor_to batch.1 DEVICE = Ok x /\
    tensor_to batch.2 DEVICE = Ok y /\
    spec_sample gen x = Ok sample /\
    make_grid sample 4 0 = Ok grid /\
    let sample_file :=
      {| fp := path_div folder ("sample_" +:+ pretty epoch +:+ ".png");
         image := sample; nrow := 4; img_padding := 0 |} in
    let sample_event := add_image ("test_image epoch=" +:+ pretty epoch) grid in
    (epoch = 0 ->
     exists label : Tensor,
       utils.remove_normalization y = Ok label /\
       files w' = files w ++
         [{| fp := path_div folder "label_0.png";
             image := label; nrow := 4; img_padding := 0 |};
          sample_file] /\
       writer w' = writer w ++ [add_graph x; sample_event]) /\
    (epoch <> 0 ->
     files w' = files w ++ [sample_file] /\
     writer w' = writer w ++ [sample_event]).
Proof.
  unfold utils.save_some_examples. intros Hrun.
  bind_inv Hrun u0 w0 E0. apply modify_ok_inv in E0.
  bind_inv Hrun xy w1 E1. lift_inv E1.
  bind_inv Hrun x w2 E2. lift_inv E2.
  bind_inv Hrun y w3 E3. lift_inv E3.
  bind_inv Hrun u4 w4 E4.
  bind_inv Hrun y_fake w5 E5. apply call_gen_ok_inv in E5 as [E5 ->].
  bind_inv Hrun yd w6 E6. lift_inv E6.
  bind_inv Hrun xd w7 E7. lift_inv E7.
  bind_inv Hrun x_concat w8 E8. lift_inv E8.
  bind_inv Hrun u9 w9 E9. apply modify_ok_inv in E9.
  bind_inv Hrun grid w10 E10. lift_inv E10.
  bind_inv Hrun u11 w11 E11. apply modify_ok_inv in E11.
  apply modify_ok_inv in Hrun.
  destruct val_loader as [| batch rest]; [discriminate E1 |].
  simpl in E1. injection E1 as ->.
  assert (Hw4 : training w4 = false /\
                ((epoch = 0 ->
                  exists label, utils.remove_normalization y = Ok label /\
                    files w4 = files w ++
                      [{| fp := path_div folder "label_0.png";
                          image := label; nrow := 4; img_padding := 0 |}] /\
                    writer w4 = writer w ++ [add_graph x]) /\
                 (epoch <> 0 -> files w4 = files w /\ writer w4 = writer w))).
  { destruct (Z.eqb_spec epoch 0) as [-> | Hne].
    - bind_inv E4 u w5 E5'.
      apply writer_add_graph_ok_inv in E5' as (Gm & Gf & Gw).
      bind_inv E4 label w6 E6'. lift_inv E6'.
      apply modify_ok_inv in E4. subst. simpl. rewrite Gm, Gf, Gw. simpl.
      split; [reflexivity |].
      split; [| intros Hne; contradiction].
      intros _. exists label. split; [exact E6' |]. split; reflexivity.
    - injection E4 as _ <-. subst. simpl.
      split; [reflexivity |].
      split; [intros Heq; contradiction |]. intros _. split; reflexivity. }
  destruct Hw4 as (Hmode & Hzero & Hnonzero).
  rewrite Hmode in E5.
  exists xy, rest, x, y, x_concat, grid.
  repeat split; try assumption.
  - unfold spec_sample. rewrite E5. simpl. rewrite E6. simpl. rewrite E7. exact E8.
  - intros Hz. destruct (Hzero Hz) as (label & Hl & Hf & Hwr).
    exists label. subst. simpl. rewrite Hf, Hwr, <- !app_assoc. repeat split. exact Hl.
  - subst. simpl. destruct (Hnonzero ltac:(assumption)) as [-> _]. reflexivity.
  - subst. simpl. destruct (Hnonzero ltac:(assumption)) as [_ ->]. reflexivity.
Qed.

End Samples.

(** ** Checkpoints *)

Section Checkpoints.
Context `{CO : CheckpointOps}.

Lemma set_lr_groups_fmap (lr : Val) (groups : list (gmap string Val)) :
  utils.set_lr_groups lr groups = (fun g => <["lr" := lr]> g) <$> groups.
Proof. induction groups as [| g groups IH]; simpl; [| rewrite IH]; reflexivity. Qed.

Lemma set_lr_groups_lookup (lr : Val) (groups : list (gmap string Val)) :
  Forall (fun g : gmap string Val => g !! "lr" = Some lr) (utils.set_lr_groups lr groups).
Proof.
  induction groups as [| g groups IH]; simpl; constructor.
  - apply lookup_insert_eq.
  - exact IH.
Qed.

Lemma set_lr_returns (lr : Val) :
  returns (utils.set_lr lr)
    (fun _ w => Forall (fun g : gmap string Val => g !! "lr" = Some lr)
                  (param_groups (ck_optimizer w))).
Proof.
  intros w u w' Hrun. unfold utils.set_lr in Hrun.
  apply bind_ok_inv in Hrun as (o & w1 & Hget & Hrun).
  unfold gets in Hget. injection Hget as <- <-.
  unfold utils.set_optimizer, modify in Hrun. injection Hrun as _ <-. simpl.
  apply set_lr_groups_lookup.
Qed.

(** C4: whenever [load_checkpoint(checkpoint_file, model, optimizer, lr)]
    returns, the ["lr"] entry of every parameter group of the optimizer is
    the argument [lr], whatever the checkpoint file held. *)
Theorem load_checkpoint_overrides_lr (checkpoint_file : Path) (lr : Val)
    (w w' : CkWorld) :
  utils.load_checkpoint checkpoint_file lr w = (Ok tt, w') ->
  Forall (fun g : gmap string Val => g !! "lr" = Some lr)
    (param_groups (ck_optimizer w')).
Proof.
  intros Hrun. revert w w' Hrun.
  assert (Hret : returns (utils.load_checkpoint checkpoint_file lr)
                   (fun _ w => Forall (fun g : gmap string Val => g !! "lr" = Some lr)
                                 (param_groups (ck_optimizer w)))).
  { unfold utils.load_checkpoint.
    do 7 (apply returns_bind; intros ?). apply set_lr_returns. }
  intros w w' Hrun. exact (Hret w tt w' Hrun).
Qed.

Lemma checkpoint_getitem_state_dict (ms os : StateDict) :
  utils.getitem
    (<["optimizer" := os]> (<["state_dict" := ms]> (∅ : gmap string StateDict)))
    "state_dict" = Ok ms.
Proof.
  unfold utils.getitem.
  rewrite lookup_insert_ne by discriminate. rewrite lookup_insert_eq. reflexivity.
Qed.

Lemma checkpoint_getitem_optimizer (ms os : StateDict) :
  utils.getitem
    (<["optimizer" := os]> (<["state_dict" := ms]> (∅ : gmap string StateDict)))
    "optimizer" = Ok os.
Proof. unfold utils.getitem. rewrite lookup_insert_eq. reflexivity. Qed.

(** What [save_checkpoint] does, whatever [torch.save] answers. *)
Lemma save_checkpoint_run (filename : Path) (w : CkWorld) :
  utils.save_checkpoint filename w
  = let saved :=
      torch_save
        (<["optimizer" := optimizer_state_dict (ck_optimizer w)]>
           (<["state_dict" := model_state_dict (ck_model w)]> ∅))
        filename (ck_disk w) in
    (saved.1, {| ck_model := ck_model w; ck_optimizer := ck_optimizer w;
                 ck_disk := saved.2;
                 ck_stdout := ck_stdout w ++ ["=> Saving checkpoint"%string] |}).
Proof.
  unfold utils.save_checkpoint, utils.ck_print, utils.set_disk.
  unfold mbind, M_bind, gets, lift, modify. simpl.
  destruct (torch_save _ filename (ck_disk w)) as [[[] | e] disk']; reflexivity.
Qed.

(** C5: after [save_checkpoint(model, optimizer, filename)], a call
    [load_checkpoint(filename, model2, optimizer2, lr)] on a module and an
    optimizer that accept the saved states returns; afterwards the state
    dictionary of [model2] is the one saved from [model], and [optimizer2]
    is the optimizer restored from the saved optimizer state with the
    ["lr"] entry of each parameter group overwritten by [lr] and nothing
    else changed. The framework is assumed to read back from a file what
    was saved to it, and to make [state_dict] return what
    [load_state_dict] accepted. *)
Theorem checkpoint_round_trip (filename : Path) (lr : Val) (w w1 : CkWorld)
    (model2 restored_model : Model)
    (optimizer2 restored_optimizer : Optimizer Val ORest) (out2 : list string) :
  (forall c f d d', torch_save c f d = (Ok tt, d') -> torch_load f DEVICE d' = Ok c) ->
  (forall m sd m', model_load_state_dict m sd = (Ok tt, m') -> model_state_dict m' = sd) ->
  (forall o sd o',
      optimizer_load_state_dict o sd = (Ok tt, o') -> optimizer_state_dict o' = sd) ->
  utils.save_checkpoint filename w = (Ok tt, w1) ->
  model_load_state_dict model2 (model_state_dict (ck_model w)) = (Ok tt, restored_model) ->
  optimizer_load_state_dict optimizer2 (optimizer_state_dict (ck_optimizer w))
    = (Ok tt, restored_optimizer) ->
  exists w2 : CkWorld,
    utils.load_checkpoint filename lr
      {| ck_model := model2; ck_optimizer := optimizer2;
         ck_disk := ck_disk w1; ck_stdout := out2 |} = (Ok tt, w2) /\
    model_state_dict (ck_model w2) = model_state_dict (ck_model w) /\
    optimizer_state_dict restored_optimizer = optimizer_state_dict (ck_optimizer w) /\
    ck_optimizer w2
    = {| param_groups := (fun g => <["lr" := lr]> g) <$> param_groups restored_optimizer;
         opt_rest := opt_rest restored_optimizer |}.
Proof.
  intros Hdisk Hmodel Hoptim Hsave Hm Ho.
  rewrite save_checkpoint_run in Hsave. cbv zeta in Hsave.
  destruct (torch_save _ filename (ck_disk w)) as [r disk'] eqn:Ed.
  injection Hsave as -> <-. simpl.
  apply Hdisk in Ed.
  eexists. split; [| split; [| split]].
  - unfold utils.load_checkpoint, utils.model_load, utils.optimizer_load, utils.set_lr,
      utils.ck_print, utils.set_model, utils.set_optimizer.
    unfold mbind, M_bind, gets, lift, modify. simpl.
    rewrite Ed. rewrite checkpoint_getitem_state_dict. simpl. rewrite Hm. simpl.
    rewrite checkpoint_getitem_optimizer. simpl. rewrite Ho. reflexivity.
  - simpl. apply (Hmodel _ _ _ Hm).
  - apply (Hoptim _ _ _ Ho).
  - simpl. rewrite set_lr_groups_fmap. reflexivity.
Qed.

End Checkpoints.

(** * Runs on the executable framework *)

Example save_some_examples_epoch_0 :
  Toy.save_some_examples Toy.gen Toy.val_loader 0 (MkPath "out") (Toy.world true)
  = (Ok tt,
     Toy.world_with true
       [Toy.saved "out/label_0.png" [7; 9]; Toy.saved "out/sample_0.png" [3; 5; -1; -3]]
       [Toy.graph_event [1; 2]; Toy.image_event "test_image epoch=0" [3; 5; -1; -3]]
       []).
Proof. reflexivity. Qed.

Example save_some_examples_epoch_7 :
  Toy.save_some_examples Toy.gen Toy.val_loader 7 (MkPath "out") (Toy.world true)
  = (Ok tt,
     Toy.world_with true
       [Toy.saved "out/sample_7.png" [3; 5; -1; -3]]
       [Toy.image_event "test_image epoch=7" [3; 5; -1; -3]]
       []).
Proof. reflexivity. Qed.

(** C6, as stated, fails on a loader without batches: [next(iter(...))]
    raises [StopIteration], no file has been written, and the generator
    stays in evaluation mode. *)
Lemma save_some_examples_empty_loader :
  Toy.save_some_examples Toy.gen [] 0 (MkPath "out") (Toy.world true)
    = (Raise StopIteration, Toy.world false) /\
  files (Toy.save_some_examples Toy.gen [] 0 (MkPath "out") (Toy.world true)).2 = [].
Proof. split; reflexivity. Qed.

Lemma save_some_examples_files_witness :
  exists w' : @World Toy.tensor_ops,
    Toy.save_some_examples Toy.gen Toy.val_loader 0 (MkPath "out") (Toy.world true)
      = (Ok tt, w') /\
    exists label sample : list Z,
      files w' = [Toy.saved "out/label_0.png" label; Toy.saved "out/sample_0.png" sample].
Proof.
  eexists. split; [reflexivity |].
  destruct (@save_some_examples_files Toy.tensor_ops Toy.cfg Toy.vision_ops
              Toy.gen Toy.val_loader 0 (MkPath "out") (Toy.world true) _ eq_refl)
    as (batch & rest & x & y & sample & grid & _ & _ & _ & _ & _ & Hzero & _).
  destruct (Hzero eq_refl) as (label & _ & Hfiles & _).
  exists label, sample. exact Hfiles.
Defined.

Lemma utils_leave_generator_training_witness :
  training (Toy.world false) = false /\
  training (Toy.save_some_examples Toy.gen Toy.val_loader 0 (MkPath "out")
              (Toy.world false)).2 = true /\
  training (Toy.evaluate_val_set Toy.gen Toy.val_loader (MkPath "out")
              (Toy.world false)).2 = true.
Proof.
  split; [reflexivity |]. split.
  - apply (proj1 (@utils_leave_generator_training Toy.tensor_ops Toy.cfg Toy.vision_ops
                    Toy.gen Toy.val_loader 0 (MkPath "out") (Toy.world false) _)).
    reflexivity.
  - apply (proj2 (@utils_leave_generator_training Toy.tensor_ops Toy.cfg Toy.vision_ops
                    Toy.gen Toy.val_loader 0 (MkPath "out") (Toy.world false) _)).
    reflexivity.
Defined.

(** ** Running the checkpoint functions *)

Section CheckpointRuns.
Context `{CO : CheckpointOps}.

Lemma load_checkpoint_run (checkpoint_file : Path) (lr : Val) (w : CkWorld)
    (c : gmap string StateDict) (ms os : StateDict)
    (model' : Model) (optimizer' : Optimizer Val ORest) :
  torch_load checkpoint_file DEVICE (ck_disk w) = Ok c ->
  utils.getitem c "state_dict" = Ok ms ->
  model_load_state_dict (ck_model w) ms = (Ok tt, model') ->
  utils.getitem c "optimizer" = Ok os ->
  optimizer_load_state_dict (ck_optimizer w) os = (Ok tt, optimizer') ->
  utils.load_checkpoint checkpoint_file lr w
  = (Ok tt,
     {| ck_model := model';
        ck_optimizer :=
          {| param_groups := utils.set_lr_groups lr (param_groups optimizer');
             opt_rest := opt_rest optimizer' |};
        ck_disk := ck_disk w;
        ck_stdout := ck_stdout w ++ ["=> Loading checkpoint"%string] |}).
Proof.
  intros Hc Hms Hm Hos Ho.
  unfold utils.load_checkpoint, utils.model_load, utils.optimizer_load, utils.set_lr,
    utils.ck_print, utils.set_model, utils.set_optimizer.
  unfold mbind, M_bind, gets, lift, modify. simpl.
  rewrite Hc, Hms. simpl. rewrite Hm. simpl. rewrite Hos. simpl. rewrite Ho.
  reflexivity.
Qed.

End CheckpointRuns.

(** * Runs on the executable framework, continued *)

Lemma Toy_save_run :
  Toy.save_checkpoint (MkPath "gen.pth") (Toy.ck_world Toy.model1 Toy.optimizer1 [] [])
  = (Ok tt, Toy.saved_world).
Proof.
  unfold Toy.save_checkpoint.
  rewrite (@save_checkpoint_run Toy.cfg Toy.checkpoint_ops). reflexivity.
Qed.

Lemma Toy_load_run :
  Toy.load_checkpoint (MkPath "gen.pth") 3 Toy.fresh_world = (Ok tt, Toy.loaded_world).
Proof.
  unfold Toy.load_checkpoint.
  rewrite (@load_checkpoint_run Toy.cfg Toy.checkpoint_ops (MkPath "gen.pth") 3
             Toy.fresh_world Toy.checkpoint1 (Toy.ModuleState Toy.model1)
             (Toy.OptimizerState Toy.optimizer1) Toy.model1 Toy.optimizer1).
  - reflexivity.
  - reflexivity.
  - apply (@checkpoint_getitem_state_dict Toy.cfg Toy.checkpoint_ops).
  - reflexivity.
  - apply (@checkpoint_getitem_optimizer Toy.cfg Toy.checkpoint_ops).
  - reflexivity.
Qed.

Lemma load_checkpoint_overrides_lr_witness :
  Toy.load_checkpoint (MkPath "gen.pth") 3 Toy.fresh_world = (Ok tt, Toy.loaded_world) /\
  Forall (fun g : gmap string Z => g !! "lr" = Some 3)
    (param_groups (@ck_optimizer Toy.cfg Toy.checkpoint_ops Toy.loaded_world)).
Proof.
  split; [exact Toy_load_run |].
  exact (@load_checkpoint_overrides_lr Toy.cfg Toy.checkpoint_ops
           (MkPath "gen.pth") 3 Toy.fresh_world Toy.loaded_world Toy_load_run).
Defined.

Lemma Toy_disk_reads_back :
  forall c f d d',
    @torch_save Toy.cfg Toy.checkpoint_ops c f d = (Ok tt, d') ->
    @torch_load Toy.cfg Toy.checkpoint_ops f tt d' = Ok c.
Proof.
  intros c f d d' Hs. simpl in *. unfold Toy.disk_save in Hs.
  case_bool_decide; [| discriminate Hs]. injection Hs as <-. simpl.
  rewrite String.eqb_refl. reflexivity.
Qed.

Lemma Toy_model_load_state :
  forall m sd m',
    @model_load_state_dict Toy.cfg Toy.checkpoint_ops m sd = (Ok tt, m') ->
    @model_state_dict Toy.cfg Toy.checkpoint_ops m' = sd.
Proof.
  intros m [params | o] m' Hl; simpl in *; [| discriminate Hl].
  case_bool_decide; [| discriminate Hl]. injection Hl as <-. reflexivity.
Qed.

Lemma Toy_optimizer_load_state :
  forall o sd o',
    @optimizer_load_state_dict Toy.cfg Toy.checkpoint_ops o sd = (Ok tt, o') ->
    @optimizer_state_dict Toy.cfg Toy.checkpoint_ops o' = sd.
Proof.
  intros o [params | s] o' Hl; simpl in *; [discriminate Hl |].
  case_bool_decide; [| discriminate Hl]. injection Hl as <-. reflexivity.
Qed.

Lemma checkpoint_round_trip_witness :
  exists w2 : @CkWorld Toy.cfg Toy.checkpoint_ops,
    Toy.load_checkpoint (MkPath "gen.pth") 3 Toy.fresh_world = (Ok tt, w2) /\
    @model_state_dict Toy.cfg Toy.checkpoint_ops (@ck_model Toy.cfg Toy.checkpoint_ops w2)
    = Toy.ModuleState Toy.model1 /\
    @ck_optimizer Toy.cfg Toy.checkpoint_ops w2
    = {| param_groups := (fun g => <["lr" := 3]> g) <$> param_groups Toy.optimizer1;
         opt_rest := opt_rest Toy.optimizer1 |}.
Proof.
  destruct (@checkpoint_round_trip Toy.cfg Toy.checkpoint_ops
              (MkPath "gen.pth") 3 (Toy.ck_world Toy.model1 Toy.optimizer1 [] [])
              Toy.saved_world Toy.model2 Toy.model1 Toy.optimizer2 Toy.optimizer1 []
              Toy_disk_reads_back Toy_model_load_state Toy_optimizer_load_state
              Toy_save_run eq_refl eq_refl)
    as (w2 & Hload & Hmodel & _ & Hoptimizer).
  exists w2. split; [exact Hload |]. split; [exact Hmodel | exact Hoptimizer].
Defined.

Lemma selectors_raise_only_outside_enum_witness :
  blocks._normalization_selector 64 (Foreign "adain" (fun _ => false))
    = Raise (NotImplementedError "Normalization type adain is not implemented.") /\
  ~ is_member (Foreign (E := NormalizationType.t) "adain" (fun _ => false)).
Proof.
  split; [reflexivity |].
  exact (proj1 (proj2 (proj2 selectors_raise_only_outside_enum)) 64
           (Foreign "adain" (fun _ => false)) _ eq_refl).
Defined.

(** ** Blocks built on the executable framework *)

Example ConvBlock_reflect_run :
  Toy.ConvBlock_init 3 64 4 2 1 (Member NormalizationType.BATCH) PaddingType.REFLECT
    (Member ActivationType.LEAKY_RELU) true 0%nat
  = (Ok (@conv_block Toy.tensor_ops 3 64 4 2 1 NormalizationType.BATCH
           PaddingType.REFLECT ActivationType.LEAKY_RELU true 2%nat 0%nat 1%nat),
     3%nat).
Proof. reflexivity. Qed.

(** The padding type ZERO has the value ["zero"], which the convolution
    constructor of this framework does not accept. *)
Example ConvBlock_zero_run :
  Toy.ConvBlock_init 3 64 4 2 1 (Member NormalizationType.BATCH) PaddingType.ZERO
    (Member ActivationType.LEAKY_RELU) true 0%nat
  = (Raise (ValueError
              "padding_mode must be one of ['zeros', 'reflect', 'replicate', 'circular']"),
     2%nat).
Proof. reflexivity. Qed.

Lemma ConvBlock_layers_by_enum_witness :
  exists (norm_object act_object : nat) (model : Module_ nat),
    @conv_block Toy.tensor_ops 3 64 4 2 1 NormalizationType.BATCH
      PaddingType.REFLECT ActivationType.LEAKY_RELU true 2%nat 0%nat 1%nat
    = ConvBlock 64 (Builtin (BatchNorm2d 64) norm_object)
        (Builtin (LeakyReLU (Qmake 2 10) true) act_object) model.
Proof.
  exact (proj2 (proj2 (@ConvBlock_layers_by_enum Toy.tensor_ops Toy.layer_ctor
                         3 64 4 2 1 NormalizationType.BATCH PaddingType.REFLECT
                         ActivationType.LEAKY_RELU true))
           0%nat 3%nat _ ConvBlock_reflect_run).
Defined.

Lemma ConvBlock_forward_composition_witness :
  exists conv_object norm_object act_object : nat,
    @conv_block Toy.tensor_ops 3 64 4 2 1 NormalizationType.BATCH
      PaddingType.REFLECT ActivationType.LEAKY_RELU true 2%nat 0%nat 1%nat
    = @conv_block Toy.tensor_ops 3 64 4 2 1 NormalizationType.BATCH
        PaddingType.REFLECT ActivationType.LEAKY_RELU true
        conv_object norm_object act_object /\
    Toy.forward
      (@conv_block Toy.tensor_ops 3 64 4 2 1 NormalizationType.BATCH
         PaddingType.REFLECT ActivationType.LEAKY_RELU true 2%nat 0%nat 1%nat)
      [1; -2]
    = (y ← @layer_forward Toy.tensor_ops (Conv2d 3 64 4 2 1 "reflect" true)
             conv_object [1; -2];
       z ← @layer_forward Toy.tensor_ops (BatchNorm2d 64) norm_object y;
       @layer_forward Toy.tensor_ops (LeakyReLU (Qmake 2 10) true) act_object z).
Proof.
  exact (@ConvBlock_forward_composition Toy.tensor_ops Toy.layer_ctor
           3 64 4 2 1 NormalizationType.BATCH PaddingType.REFLECT
           ActivationType.LEAKY_RELU true 0%nat 3%nat _ [1; -2] ConvBlock_reflect_run).
Defined.

Example ResBlock_reflect_run :
  Toy.ResBlock_init 8 3 1 1 (Member NormalizationType.INSTANCE) PaddingType.REFLECT
    (Member ActivationType.RELU) 0%nat
  = (Ok (ResBlock (Sequential
           [@conv_block Toy.tensor_ops 8 8 3 1 1 NormalizationType.INSTANCE
              PaddingType.REFLECT ActivationType.RELU true 2%nat 0%nat 1%nat;
            @conv_block Toy.tensor_ops 8 8 3 1 1 NormalizationType.INSTANCE
              PaddingType.REFLECT ActivationType.NONE true 5%nat 3%nat 4%nat])),
     6%nat).
Proof. reflexivity. Qed.

Lemma ResBlock_forward_residual_witness :
  exists first second : Module_ nat,
    ResBlock (Sequential
      [@conv_block Toy.tensor_ops 8 8 3 1 1 NormalizationType.INSTANCE
         PaddingType.REFLECT ActivationType.RELU true 2%nat 0%nat 1%nat;
       @conv_block Toy.tensor_ops 8 8 3 1 1 NormalizationType.INSTANCE
         PaddingType.REFLECT ActivationType.NONE true 5%nat 3%nat 4%nat])
    = ResBlock (Sequential [first; second]) /\
    Toy.forward
      (ResBlock (Sequential
         [@conv_block Toy.tensor_ops 8 8 3 1 1 NormalizationType.INSTANCE
            PaddingType.REFLECT ActivationType.RELU true 2%nat 0%nat 1%nat;
          @conv_block Toy.tensor_ops 8 8 3 1 1 NormalizationType.INSTANCE
            PaddingType.REFLECT ActivationType.NONE true 5%nat 3%nat 4%nat]))
      [1; -2]
    = (body ← (y ← Toy.forward first [1; -2]; Toy.forward second y);
       @tensor_add Toy.tensor_ops body [1; -2]).
Proof.
  destruct (@ResBlock_forward_residual Toy.tensor_ops Toy.layer_ctor
              8 3 1 1 NormalizationType.INSTANCE PaddingType.REFLECT
              ActivationType.RELU 0%nat 6%nat _ [1; -2] ResBlock_reflect_run)
    as (first & second & t1 & _ & _ & _ & _ & Heq & Hforward).
  exists first, second. split; [exact Heq | exact Hforward].
Defined.




(** * Further properties of blocks.py *)

(** X1: a selector raises exactly when its argument compares equal to no
    member of the enum, and the exception is then the
    [NotImplementedError] whose message names the argument. *)
Theorem selectors_raise_iff_no_match :
  (forall (norm_dim : Z) (v : arg NormalizationType.t),
      (forall m : NormalizationType.t, py_eq v m = false) <->
      blocks._normalization_selector norm_dim v
      = Raise (NotImplementedError
                 ("Normalization type " +:+ py_str NormalizationType.str v
                  +:+ " is not implemented."))) /\
  (forall v : arg ActivationType.t,
      (forall m : ActivationType.t, py_eq v m = false) <->
      blocks._activation_layer_selector v
      = Raise (NotImplementedError
                 ("Activation type " +:+ py_str ActivationType.str v
                  +:+ " is not implemented."))).
Proof.
  split.
  - intros d v. unfold blocks._normalization_selector. split.
    + intros Hno. rewrite !Hno. reflexivity.
    + intros Hr m.
      destruct (py_eq v NormalizationType.BATCH) eqn:E1; [discriminate Hr |].
      destruct (py_eq v NormalizationType.INSTANCE) eqn:E2; [discriminate Hr |].
      destruct (py_eq v NormalizationType.LAYER) eqn:E3; [discriminate Hr |].
      destruct (py_eq v NormalizationType.NONE) eqn:E4; [discriminate Hr |].
      destruct m; assumption.
  - intros v. unfold blocks._activation_layer_selector. split.
    + intros Hno. rewrite !Hno. reflexivity.
    + intros Hr m.
      destruct (py_eq v ActivationType.RELU) eqn:E1; [discriminate Hr |].
      destruct (py_eq v ActivationType.LEAKY_RELU) eqn:E2; [discriminate Hr |].
      destruct (py_eq v ActivationType.TANH) eqn:E3; [discriminate Hr |].
      destruct (py_eq v ActivationType.SIGMOID) eqn:E4; [discriminate Hr |].
      destruct (py_eq v ActivationType.NONE) eqn:E5; [discriminate Hr |].
      destruct m; assumption.
Qed.

Section Stacks.
Context `{LC : LayerCtor}.

Lemma forward_Sequential_cons (m : Module_ LayerObject) (ms : list (Module_ LayerObject))
    (x : Tensor) :
  blocks.forward (Sequential (m :: ms)) x
  = (y ← blocks.forward m x; blocks.forward (Sequential ms) y).
Proof. reflexivity. Qed.

(** X2: when [layer_multiplier >= max_layer_multiplier] the [ConvBlocks]
    constructor returns after the first test of the loop with no block at
    all, without ever looking at the normalization or activation type (an
    object outside the enums is accepted) and without constructing any
    layer, and the forward pass of the resulting module returns its input
    unchanged. *)
Theorem ConvBlocks_empty_is_identity (fuel : nat)
    (layer_multiplier max_layer_multiplier kernel_size stride padding : Z)
    (pt : PaddingType.t) (v : arg NormalizationType.t) (a : arg ActivationType.t)
    (torch : Torch) (x : Tensor) :
  max_layer_multiplier <= layer_multiplier ->
  blocks.ConvBlocks_init (S fuel) layer_multiplier max_layer_multiplier
    kernel_size stride padding pt v a torch
  = Some (Ok (ConvBlocks [] (Sequential [])), torch) /\
  blocks.forward (ConvBlocks [] (Sequential [])) x = Ok x.
Proof.
  intros Hge. split; [| reflexivity].
  unfold blocks.ConvBlocks_init. rewrite ConvBlocks_loop_exit by exact Hge. reflexivity.
Qed.

(** X3: the order of the failures of the first iteration of [ConvBlocks],
    entered when [layer_multiplier < max_layer_multiplier], whatever the
    sign of [layer_multiplier]. A normalization type that equals no member
    is rejected with [NotImplementedError] before any layer is constructed;
    for a member, an exception of the normalization layer's constructor is
    the result, whatever the activation type is; and only when that layer
    was constructed is an activation type that equals no member
    rejected. *)
Theorem ConvBlocks_raises_in_first_iteration (fuel : nat)
    (layer_multiplier max_layer_multiplier kernel_size stride padding : Z)
    (pt : PaddingType.t) (v : arg NormalizationType.t) (a : arg ActivationType.t)
    (torch : Torch) :
  layer_multiplier < max_layer_multiplier ->
  ((forall m : NormalizationType.t, py_eq v m = false) ->
   blocks.ConvBlocks_init (S fuel) layer_multiplier max_layer_multiplier
     kernel_size stride padding pt v a torch
   = Some (Raise (NotImplementedError
                    ("Normalization type " +:+ py_str NormalizationType.str v
                     +:+ " is not implemented.")), torch)) /\
  (forall (n : NormalizationType.t) (e : exn) (torch' : Torch),
      v = Member n ->
      construct (spec_normalization n (layer_multiplier * 2)) torch = (Raise e, torch') ->
      blocks.ConvBlocks_init (S fuel) layer_multiplier max_layer_multiplier
        kernel_size stride padding pt v a torch
      = Some (Raise e, torch')) /\
  (forall (n : NormalizationType.t) (norm_object : LayerObject) (torch' : Torch),
      v = Member n ->
      construct (spec_normalization n (layer_multiplier * 2)) torch
        = (Ok norm_object, torch') ->
      (forall m : ActivationType.t, py_eq a m = false) ->
      blocks.ConvBlocks_init (S fuel) layer_multiplier max_layer_multiplier
        kernel_size stride padding pt v a torch
      = Some (Raise (NotImplementedError
                       ("Activation type " +:+ py_str ActivationType.str a
                        +:+ " is not implemented.")), torch')).
Proof.
  intros Hlt.
  assert (Hstep : forall e t',
             blocks.ConvBlock_init layer_multiplier (layer_multiplier * 2)
               kernel_size stride padding v pt a true torch = (Raise e, t') ->
             blocks.ConvBlocks_init (S fuel) layer_multiplier max_layer_multiplier
               kernel_size stride padding pt v a torch = Some (Raise e, t')).
  { intros e t' Hcb. unfold blocks.ConvBlocks_init.
    rewrite (ConvBlocks_loop_raise _ _ _ _ _ _ _ _ _ _ _ _ _ Hlt Hcb). reflexivity. }
  split; [| split].
  - intros Hno. apply Hstep. unfold blocks.ConvBlock_init, blocks._normalization_selector.
    rewrite !Hno. reflexivity.
  - intros n e torch' -> Hctor. apply Hstep. unfold blocks.ConvBlock_init.
    rewrite normalization_selector_member.
    unfold mbind, M_bind, lift. rewrite Hctor. reflexivity.
  - intros n norm_object torch' -> Hctor Hno. apply Hstep. unfold blocks.ConvBlock_init.
    rewrite normalization_selector_member.
    unfold mbind, M_bind, lift. rewrite Hctor.
    unfold blocks._activation_layer_selector. rewrite !Hno. reflexivity.
Qed.

Section StackShape.
Variables (kernel_size stride padding : Z).
Variables (pt : PaddingType.t) (n : NormalizationType.t) (a : ActivationType.t).

(** X4: whenever [ConvBlocks] returns a stack for [layer_multiplier <
    max_layer_multiplier], the stack is channel-consistent: the first block
    takes [layer_multiplier] channels, every block's output channel count
    is the next block's input channel count, and the last block maps [c]
    to [2c] channels with [c < max_layer_multiplier <= 2c], so that the
    final width exceeds [max_layer_multiplier] unless the ratio is a power
    of two. *)
Theorem ConvBlocks_channels_chain (fuel : nat)
    (layer_multiplier max_layer_multiplier : Z) (torch torch' : Torch)
    (layers : list (Module_ LayerObject)) (model : Module_ LayerObject) :
  layer_multiplier < max_layer_multiplier ->
  blocks.ConvBlocks_init fuel layer_multiplier max_layer_multiplier
    kernel_size stride padding pt (Member n) (Member a) torch
  = Some (Ok (ConvBlocks layers model), torch') ->
  model = Sequential layers /\
  (exists first,
      head layers = Some first /\
      block_channels first = Some (layer_multiplier, layer_multiplier * 2)) /\
  (forall (i : nat) (b1 b2 : Module_ LayerObject),
      layers !! i = Some b1 -> layers !! S i = Some b2 ->
      exists c_in c_mid c_out,
        block_channels b1 = Some (c_in, c_mid) /\
        block_channels b2 = Some (c_mid, c_out)) /\
  (exists final c,
      last layers = Some final /\
      block_channels final = Some (c, c * 2) /\
      c < max_layer_multiplier <= c * 2).
Proof.
  intros Hlt Hrun.
  apply ConvBlocks_init_ok_inv in Hrun as (ls & Heq & Hloop).
  injection Heq as -> ->.
  apply ConvBlocks_loop_ok_shape in Hloop as (new & Hnew & Hbelow & Habove & Hblocks).
  simpl in Hnew. subst new.
  assert (Hch : forall i b, ls !! i = Some b ->
            block_channels b = Some (layer_multiplier * 2 ^ Z.of_nat i,
                                     layer_multiplier * 2 ^ Z.of_nat i * 2)).
  { intros i b Hb. apply (block_channels_conv_block kernel_size stride padding pt n a).
    exact (Hblocks i b Hb). }
  destruct ls as [| first rest]; [simpl in Habove; lia |].
  split; [reflexivity |]. split; [| split].
  - exists first. split; [reflexivity |].
    rewrite (Hch 0%nat first eq_refl). simpl. rewrite Z.mul_1_r. reflexivity.
  - intros i b1 b2 H1 H2.
    exists (layer_multiplier * 2 ^ Z.of_nat i),
           (layer_multiplier * 2 ^ Z.of_nat i * 2),
           (layer_multiplier * 2 ^ Z.of_nat (S i) * 2).
    split; [exact (Hch i b1 H1) |]. rewrite (Hch (S i) b2 H2).
    rewrite Nat2Z.inj_succ, Z.pow_succ_r by lia. do 2 f_equal. ring.
  - destruct (last (first :: rest)) as [final |] eqn:Hlast.
    + exists final, (layer_multiplier * 2 ^ Z.of_nat (length rest)).
      split; [reflexivity |].
      rewrite last_lookup in Hlast. simpl in Hlast.
      split; [exact (Hch _ _ Hlast) |].
      split; [apply Hbelow; simpl; lia |].
      simpl length in Habove. rewrite Nat2Z.inj_succ, Z.pow_succ_r in Habove by lia. lia.
    + rewrite last_lookup in Hlast. simpl in Hlast.
      apply lookup_ge_None in Hlast. simpl in Hlast. lia.
Qed.

(** X5: whenever [ConvBlocks] returns a stack for [layer_multiplier <
    max_layer_multiplier], the stack has a first block, from
    [layer_multiplier] to [2 * layer_multiplier] channels, and its forward
    pass is the forward pass of that block followed by the forward pass
    through the remaining blocks of the stack, in the order in which they
    were appended; an error of the first block is the result. *)
Theorem ConvBlocks_forward_unfolds (fuel : nat)
    (layer_multiplier max_layer_multiplier : Z) (torch torch' : Torch)
    (stack : Module_ LayerObject) :
  layer_multiplier < max_layer_multiplier ->
  blocks.ConvBlocks_init fuel layer_multiplier max_layer_multiplier
    kernel_size stride padding pt (Member n) (Member a) torch
  = Some (Ok stack, torch') ->
  exists (first : Module_ LayerObject) (rest : list (Module_ LayerObject)),
    stack = ConvBlocks (first :: rest) (Sequential (first :: rest)) /\
    is_conv_block layer_multiplier (layer_multiplier * 2)
      kernel_size stride padding n pt a true first /\
    forall x : Tensor,
      blocks.forward stack x
      = (y ← blocks.forward first x; blocks.forward (Sequential rest) y).
Proof.
  intros Hlt Hrun.
  apply ConvBlocks_init_ok_inv in Hrun as (ls & -> & Hloop).
  apply ConvBlocks_loop_ok_shape in Hloop as (new & Hnew & _ & Habove & Hblocks).
  simpl in Hnew. subst new.
  destruct ls as [| first rest]; [simpl in Habove; lia |].
  exists first, rest. split; [reflexivity |]. split.
  - specialize (Hblocks 0%nat first eq_refl). simpl in Hblocks.
    rewrite Z.mul_1_r in Hblocks. exact Hblocks.
  - intros x. reflexivity.
Qed.

End StackShape.

(** ** The stack of residual blocks *)



(** X7: with a zero or negative [num_blocks], [ResBlocks] returns a module
    without blocks, whatever the normalization and activation types are
    and without constructing any layer, and its forward pass returns its
    input unchanged. *)
Theorem ResBlocks_empty_is_identity (channels num_blocks : Z)
    (pt : PaddingType.t) (v : arg NormalizationType.t) (a : arg ActivationType.t)
    (torch : Torch) (x : Tensor) :
  num_blocks <= 0 ->
  blocks.ResBlocks_init channels num_blocks v pt a torch
    = (Ok (ResBlocks [] (Sequential [])), torch) /\
  blocks.forward (ResBlocks [] (Sequential [])) x = Ok x.
Proof.
  intros Hle. split; [| reflexivity].
  unfold blocks.ResBlocks_init. replace (Z.to_nat num_blocks) with 0%nat by lia.
  reflexivity.
Qed.

End Stacks.

(** * Further properties of utils.py *)

(** ** Invariants of computations *)

Lemma bind_inv {W A B} (m : M W A) (k : A -> M W B) (w : W) (r : result B) (w' : W) :
  (m ≫= k) w = (r, w') ->
  (exists e, m w = (Raise e, w') /\ r = Raise e) \/
  (exists a w1, m w = (Ok a, w1) /\ k a w1 = (r, w')).
Proof.
  unfold mbind, M_bind. destruct (m w) as [[a | e] w1]; intros Hk.
  - right. exists a, w1. split; [reflexivity | exact Hk].
  - left. exists e. injection Hk as <- <-. split; reflexivity.
Qed.

Lemma preserves_bind {W A B} (I : W -> Prop) (m : M W A) (k : A -> M W B) :
  preserves I m -> (forall a, preserves I (k a)) -> preserves I (m ≫= k).
Proof.
  intros Hm Hk w r w' HI Hrun.
  apply bind_inv in Hrun as [(e & Hrun & _) | (a & w1 & Hrun & Hrest)].
  - exact (Hm _ _ _ HI Hrun).
  - exact (Hk a _ _ _ (Hm _ _ _ HI Hrun) Hrest).
Qed.

Lemma preserves_lift {W A} (I : W -> Prop) (r : result A) : preserves I (lift (W := W) r).
Proof. intros w r' w' HI Hrun. injection Hrun as _ <-. exact HI. Qed.

Lemma preserves_gets {W A} (I : W -> Prop) (f : W -> A) : preserves I (gets f).
Proof. intros w r' w' HI Hrun. injection Hrun as _ <-. exact HI. Qed.

Lemma preserves_mret {W A} (I : W -> Prop) (a : A) : preserves I (mret (M := M W) a).
Proof. intros w r' w' HI Hrun. injection Hrun as _ <-. exact HI. Qed.

Lemma preserves_modify {W} (I : W -> Prop) (f : W -> W) :
  (forall w, I w -> I (f w)) -> preserves I (modify f).
Proof. intros Hf w r' w' HI Hrun. injection Hrun as _ <-. exact (Hf w HI). Qed.

Lemma on_raise_bind {W A B} (I : W -> Prop) (m : M W A) (k : A -> M W B) :
  preserves I m -> (forall a, on_raise I (k a)) -> on_raise I (m ≫= k).
Proof.
  intros Hm Hk w e w' HI Hrun.
  apply bind_inv in Hrun as [(e' & Hrun & _) | (a & w1 & Hrun & Hrest)].
  - exact (Hm _ _ _ HI Hrun).
  - exact (Hk a _ _ _ (Hm _ _ _ HI Hrun) Hrest).
Qed.

Lemma on_raise_modify {W} (I : W -> Prop) (f : W -> W) : on_raise I (modify f).
Proof. intros w e w' _ Hrun. discriminate Hrun. Qed.

Section Frames.
Context `{VO : VisionOps}.

Lemma preserves_call_gen (I : World -> Prop) (gen : bool -> Tensor -> result Tensor)
    (x : Tensor) :
  preserves I (utils.call_gen gen x).
Proof.
  unfold utils.call_gen. apply preserves_bind; [apply preserves_gets |].
  intros mode. apply preserves_lift.
Qed.

Lemma preserves_writer_add_graph (I : World -> Prop)
    (gen : bool -> Tensor -> result Tensor) (x : Tensor) :
  (forall lines, preserves I (utils.print_all lines)) ->
  (forall ev, preserves I (utils.writer_log ev)) ->
  preserves I (utils.writer_add_graph gen x).
Proof.
  intros Hout Hlog. unfold utils.writer_add_graph.
  apply preserves_bind; [apply Hout | intros _].
  destruct (trace_graph (gen false) x).1; [apply Hlog | apply preserves_lift].
Qed.

Lemma evaluate_loop_preserves (I : World -> Prop)
    (gen : bool -> Tensor -> result Tensor) (folder : Path) :
  (forall t p r c, preserves I (utils.save_image t p r c)) ->
  (forall s, preserves I (utils.print s)) ->
  forall (batches : list (Tensor * Tensor)) (idx : Z),
    preserves I (utils.evaluate_loop gen folder idx batches).
Proof.
  intros Hsave Hprint batches.
  induction batches as [| xy rest IH]; intros idx; simpl.
  - apply preserves_mret.
  - do 8 (apply preserves_bind;
          [first [apply preserves_lift | apply preserves_call_gen
                 | apply Hsave | apply Hprint] | intros ?]).
    apply IH.
Qed.





(** X10: when [save_some_examples] or [evaluate_val_set] raises, the
    generator is left in evaluation mode: [gen.train()] is reached only
    on the normal path. *)
Theorem utils_raise_leaves_generator_in_eval
    (gen : bool -> Tensor -> result Tensor) (val_loader : list (Tensor * Tensor))
    (epoch : Z) (folder : Path) (w w' : World) (e : exn) :
  (utils.save_some_examples gen val_loader epoch folder w = (Raise e, w') ->
   training w' = false) /\
  (utils.evaluate_val_set gen val_loader folder w = (Raise e, w') ->
   training w' = false).
Proof.
  assert (Hsave : forall t p r c,
             preserves (fun v => training v = false) (utils.save_image t p r c))
    by (intros; apply preserves_modify; intros v Hv; exact Hv).
  assert (Hlog : forall ev,
             preserves (fun v => training v = false) (utils.writer_log ev))
    by (intros; apply preserves_modify; intros v Hv; exact Hv).
  assert (Hprint : forall s,
             preserves (fun v => training v = false) (utils.print s))
    by (intros; apply preserves_modify; intros v Hv; exact Hv).
  assert (Hout : forall lines,
             preserves (fun v => training v = false) (utils.print_all lines))
    by (intros; apply preserves_modify; intros v Hv; exact Hv).
  split; intros Hrun.
  - unfold utils.save_some_examples in Hrun.
    apply bind_inv in Hrun as [(e' & Hrun & _) | (u & w1 & Hmode & Hrun)];
      [discriminate Hrun |].
    apply modify_ok_inv in Hmode.
    assert (Hw1 : training w1 = false) by (subst w1; reflexivity).
    lazymatch type of Hrun with
    | ?m w1 = _ =>
        cut (on_raise (fun v => training v = false) m);
        [intros Hor; exact (Hor w1 e w' Hw1 Hrun) |]
    end.
    clear Hrun. cbv beta.
    do 3 (apply on_raise_bind; [apply preserves_lift | intros ?]).
    apply on_raise_bind.
    { destruct (epoch =? 0); [| apply preserves_mret].
      apply preserves_bind; [apply preserves_writer_add_graph; assumption | intros _].
      apply preserves_bind; [apply preserves_lift | intros ?]. apply Hsave. }
    intros _.
    apply on_raise_bind; [apply preserves_call_gen | intros ?].
    do 3 (apply on_raise_bind; [apply preserves_lift | intros ?]).
    apply on_raise_bind; [apply Hsave | intros _].
    apply on_raise_bind; [apply preserves_lift | intros ?].
    apply on_raise_bind; [apply Hlog | intros _].
    apply on_raise_modify.
  - unfold utils.evaluate_val_set in Hrun.
    apply bind_inv in Hrun as [(e' & Hrun & _) | (u & w1 & Hmode & Hrun)];
      [discriminate Hrun |].
    apply modify_ok_inv in Hmode.
    assert (Hw1 : training w1 = false) by (subst w1; reflexivity).
    lazymatch type of Hrun with
    | ?m w1 = _ =>
        cut (on_raise (fun v => training v = false) m);
        [intros Hor; exact (Hor w1 e w' Hw1 Hrun) |]
    end.
    clear Hrun. cbv beta.
    apply on_raise_bind; [apply evaluate_loop_preserves; assumption | intros _].
    apply on_raise_modify.
Qed.

Lemma val_files_lookup (folder : Path) (images : list Tensor) :
  forall (idx : Z) (i : nat),
    val_files folder idx images !! i
    = (fun img => {| fp := path_div folder ("val_" +:+ pretty (idx + Z.of_nat i) +:+ ".png");
                     image := img; nrow := 4; img_padding := 0 |}) <$> images !! i.
Proof.
  induction images as [| img rest IH]; intros idx i; [reflexivity |].
  destruct i as [| i]; simpl.
  - rewrite Z.add_0_r. reflexivity.
  - rewrite IH. replace (idx + 1 + Z.of_nat i) with (idx + Z.pos (Pos.of_succ_nat i)) by lia.
    reflexivity.
Qed.

Lemma val_lines_lookup (count : nat) :
  forall (idx : Z) (i : nat),
    (i < count)%nat ->
    val_lines idx count !! i = Some ("Saving " +:+ pretty (idx + Z.of_nat i) +:+ " image").
Proof.
  induction count as [| count IH]; intros idx i Hi; [lia |].
  destruct i as [| i]; simpl.
  - rewrite Z.add_0_r. reflexivity.
  - rewrite IH by lia.
    replace (idx + 1 + Z.of_nat i) with (idx + Z.pos (Pos.of_succ_nat i)) by lia.
    reflexivity.
Qed.

Lemma evaluate_loop_returns (gen : bool -> Tensor -> result Tensor) (folder : Path) :
  forall (batches : list (Tensor * Tensor)) (idx : Z) (w w' : World),
    training w = false ->
    utils.evaluate_loop gen folder idx batches w = (Ok tt, w') ->
    exists images : list Tensor,
      Forall2 (fun b img => spec_val_image gen b = Ok img) batches images /\
      files w' = files w ++ val_files folder idx images /\
      stdout w' = stdout w ++ val_lines idx (length batches) /\
      writer w' = writer w /\
      training w' = false.
Proof.
  induction batches as [| xy rest IH]; intros idx w w' Hmode Hrun; simpl in Hrun.
  - injection Hrun as <-. exists []. rewrite !app_nil_r.
    split; [constructor |]. repeat split; assumption.
  - apply bind_ok_inv in Hrun as (x & w1 & E1 & Hrun). apply lift_ok_inv in E1 as [E1 ->].
    apply bind_ok_inv in Hrun as (y & w1 & E2 & Hrun). apply lift_ok_inv in E2 as [E2 ->].
    apply bind_ok_inv in Hrun as (y_fake & w1 & E3 & Hrun).
    apply call_gen_ok_inv in E3 as [E3 ->]. rewrite Hmode in E3.
    apply bind_ok_inv in Hrun as (out & w1 & E4 & Hrun). apply lift_ok_inv in E4 as [E4 ->].
    apply bind_ok_inv in Hrun as (xd & w1 & E5 & Hrun). apply lift_ok_inv in E5 as [E5 ->].
    apply bind_ok_inv in Hrun as (img & w1 & E6 & Hrun). apply lift_ok_inv in E6 as [E6 ->].
    apply bind_ok_inv in Hrun as (u1 & w1 & E7 & Hrun). apply modify_ok_inv in E7.
    apply bind_ok_inv in Hrun as (u2 & w2 & E8 & Hrun). apply modify_ok_inv in E8.
    subst w1 w2.
    apply IH in Hrun as (images & Himgs & Hfiles & Hout & Hwriter & Hm); [| exact Hmode].
    simpl in Hfiles, Hout, Hwriter.
    exists (img :: images). split; [| split; [| split; [| split]]].
    + constructor; [| exact Himgs].
      unfold spec_val_image. rewrite E1. simpl. rewrite E2. simpl. rewrite E3. simpl.
      rewrite E4. exact E6.
    + rewrite Hfiles, <- app_assoc. reflexivity.
    + rewrite Hout, <- app_assoc. reflexivity.
    + exact Hwriter.
    + exact Hm.
Qed.

(** X11: when [evaluate_val_set] returns, it has written one file per
    batch of the loader, in order, named [val_0.png], [val_1.png], ...;
    file [i] holds the ground truth of batch [i] as loaded, not
    denormalized, joined along the width with the denormalized output of
    the generator in evaluation mode, and one line ["Saving i image"] was
    printed per batch. With an empty loader nothing is written and the call
    still returns. *)
Theorem evaluate_val_set_files
    (gen : bool -> Tensor -> result Tensor) (val_loader : list (Tensor * Tensor))
    (folder : Path) (w w' : World) :
  utils.evaluate_val_set gen val_loader folder w = (Ok tt, w') ->
  exists images : list Tensor,
    Forall2 (fun b img => spec_val_image gen b = Ok img) val_loader images /\
    files w' = files w ++ val_files folder 0 images /\
    (forall (i : nat) (img : Tensor),
        images !! i = Some img ->
        files w' !! (length (files w) + i)%nat
        = Some {| fp := path_div folder ("val_" +:+ pretty (Z.of_nat i) +:+ ".png");
                  image := img; nrow := 4; img_padding := 0 |}) /\
    stdout w' = stdout w ++ val_lines 0 (length val_loader) /\
    (forall i : nat,
        (i < length val_loader)%nat ->
        stdout w' !! (length (stdout w) + i)%nat
        = Some ("Saving " +:+ pretty (Z.of_nat i) +:+ " image")).
Proof.
  intros Hrun. unfold utils.evaluate_val_set in Hrun.
  apply bind_ok_inv in Hrun as (u0 & w0 & E0 & Hrun). apply modify_ok_inv in E0.
  apply bind_ok_inv in Hrun as (u1 & w1 & E1 & Hrun).
  apply modify_ok_inv in Hrun.
  destruct u1. apply evaluate_loop_returns in E1
    as (images & Himgs & Hfiles & Hout & _ & _); [| subst w0; reflexivity].
  subst w0 w'. simpl in *.
  exists images. split; [exact Himgs |]. split; [exact Hfiles |].
  split; [| split; [exact Hout |]].
  - intros i img Hi. rewrite Hfiles, lookup_app_r by lia.
    replace (length (files w) + i - length (files w))%nat with i by lia.
    rewrite val_files_lookup, Hi. reflexivity.
  - intros i Hi. rewrite Hout, lookup_app_r by lia.
    replace (length (stdout w) + i - length (stdout w))%nat with i by lia.
    rewrite val_lines_lookup by exact Hi. reflexivity.
Qed.

End Frames.

(** ** Outcomes of the checkpoint functions *)

Section CheckpointOutcomes.
Context `{CO : CheckpointOps}.

Lemma getitem_ok {A} (d : gmap string A) (key : string) (v : A) :
  utils.getitem d key = Ok v <-> d !! key = Some v.
Proof.
  unfold utils.getitem. destruct (d !! key) as [v' |]; split; intros Heq;
    try discriminate Heq; injection Heq as <-; reflexivity.
Qed.

Lemma load_checkpoint_ok_inv (checkpoint_file : Path) (lr : Val) (w w' : CkWorld) :
  utils.load_checkpoint checkpoint_file lr w = (Ok tt, w') ->
  exists (c : gmap string StateDict) (ms os : StateDict)
         (model' : Model) (optimizer' : Optimizer Val ORest),
    torch_load checkpoint_file DEVICE (ck_disk w) = Ok c /\
    c !! "state_dict" = Some ms /\
    model_load_state_dict (ck_model w) ms = (Ok tt, model') /\
    c !! "optimizer" = Some os /\
    optimizer_load_state_dict (ck_optimizer w) os = (Ok tt, optimizer') /\
    w' = {| ck_model := model';
            ck_optimizer :=
              {| param_groups := utils.set_lr_groups lr (param_groups optimizer');
                 opt_rest := opt_rest optimizer' |};
            ck_disk := ck_disk w;
            ck_stdout := ck_stdout w ++ ["=> Loading checkpoint"%string] |}.
Proof.
  unfold utils.load_checkpoint, utils.model_load, utils.optimizer_load, utils.set_lr,
    utils.ck_print, utils.set_model, utils.set_optimizer.
  unfold mbind, M_bind, gets, lift, modify. simpl.
  destruct (torch_load checkpoint_file DEVICE (ck_disk w)) as [c | e];
    [| intros Hrun; discriminate Hrun].
  destruct (utils.getitem c "state_dict") as [ms | e] eqn:Hms; simpl;
    [| intros Hrun; discriminate Hrun].
  destruct (model_load_state_dict (ck_model w) ms) as [[[] | e] model'] eqn:Hm; simpl;
    [| intros Hrun; discriminate Hrun].
  destruct (utils.getitem c "optimizer") as [os | e] eqn:Hos; simpl;
    [| intros Hrun; discriminate Hrun].
  destruct (optimizer_load_state_dict (ck_optimizer w) os) as [[[] | e] optimizer']
    eqn:Ho; simpl; [| intros Hrun; discriminate Hrun].
  intros Hrun. injection Hrun as <-.
  exists c, ms, os, model', optimizer'.
  apply getitem_ok in Hms, Hos. repeat split; assumption.
Qed.

(** X12: [save_checkpoint] prints its line and hands [torch.save] the
    dictionary with exactly the keys ["state_dict"] and ["optimizer"],
    holding the state dictionaries of the module and of the optimizer; its
    outcome and the file system afterwards are those of that [torch.save]
    call, also when it raises, and module and optimizer are untouched. *)
Theorem save_checkpoint_outcome (filename : Path) (w : CkWorld)
    (checkpoint : gmap string StateDict) (r : result unit) (disk' : Disk) :
  checkpoint !! "state_dict" = Some (model_state_dict (ck_model w)) ->
  checkpoint !! "optimizer" = Some (optimizer_state_dict (ck_optimizer w)) ->
  (forall key : string,
      key <> "state_dict"%string -> key <> "optimizer"%string -> checkpoint !! key = None) ->
  torch_save checkpoint filename (ck_disk w) = (r, disk') ->
  utils.save_checkpoint filename w
  = (r, {| ck_model := ck_model w; ck_optimizer := ck_optimizer w;
           ck_disk := disk';
           ck_stdout := ck_stdout w ++ ["=> Saving checkpoint"%string] |}).
Proof.
  intros Hms Hos Hrest Hsave.
  assert (Heq : checkpoint
                = <["optimizer" := optimizer_state_dict (ck_optimizer w)]>
                    (<["state_dict" := model_state_dict (ck_model w)]> ∅)).
  { apply map_eq. intros key.
    destruct (decide (key = "optimizer"%string)) as [-> | Hne1].
    - rewrite lookup_insert_eq. exact Hos.
    - rewrite lookup_insert_ne by congruence.
      destruct (decide (key = "state_dict"%string)) as [-> | Hne2].
      + rewrite lookup_insert_eq. exact Hms.
      + rewrite lookup_insert_ne by congruence. rewrite lookup_empty.
        apply Hrest; assumption. }
  rewrite save_checkpoint_run. rewrite <- Heq. rewrite Hsave. reflexivity.
Qed.

(** X13: [load_checkpoint] returns exactly when the file can be loaded,
    has entries under ["state_dict"] and ["optimizer"], and both
    [load_state_dict] calls accept them; the module is then the one the
    framework restored, the optimizer the restored one with the rate
    overridden, and the file system is untouched. *)
Theorem load_checkpoint_returns_iff (checkpoint_file : Path) (lr : Val)
    (w w' : CkWorld) :
  utils.load_checkpoint checkpoint_file lr w = (Ok tt, w') <->
  exists (c : gmap string StateDict) (ms os : StateDict)
         (model' : Model) (optimizer' : Optimizer Val ORest),
    torch_load checkpoint_file DEVICE (ck_disk w) = Ok c /\
    c !! "state_dict" = Some ms /\
    model_load_state_dict (ck_model w) ms = (Ok tt, model') /\
    c !! "optimizer" = Some os /\
    optimizer_load_state_dict (ck_optimizer w) os = (Ok tt, optimizer') /\
    w' = {| ck_model := model';
            ck_optimizer :=
              {| param_groups := utils.set_lr_groups lr (param_groups optimizer');
                 opt_rest := opt_rest optimizer' |};
            ck_disk := ck_disk w;
            ck_stdout := ck_stdout w ++ ["=> Loading checkpoint"%string] |}.
Proof.
  split; [apply load_checkpoint_ok_inv |].
  intros (c & ms & os & model' & optimizer' & Hc & Hms & Hm & Hos & Ho & ->).
  apply (load_checkpoint_run checkpoint_file lr w c ms os model' optimizer');
    try assumption; apply getitem_ok; assumption.
Qed.

(** X14: when a [load_state_dict] call raises, [load_checkpoint] raises
    the same exception and what was done before stays done. If the
    module's call raises, the module is as that call left it (it may be
    half-loaded) and the optimizer is untouched; if the optimizer's call
    raises, the module holds the loaded state and the optimizer is as its
    call left it, its learning rates not overridden. *)
Theorem load_checkpoint_failing_load (checkpoint_file : Path) (lr : Val)
    (w : CkWorld) (c : gmap string StateDict) (ms : StateDict) :
  torch_load checkpoint_file DEVICE (ck_disk w) = Ok c ->
  c !! "state_dict" = Some ms ->
  (forall (e : exn) (model' : Model),
      model_load_state_dict (ck_model w) ms = (Raise e, model') ->
      utils.load_checkpoint checkpoint_file lr w
      = (Raise e,
         {| ck_model := model'; ck_optimizer := ck_optimizer w; ck_disk := ck_disk w;
            ck_stdout := ck_stdout w ++ ["=> Loading checkpoint"%string] |})) /\
  (forall (model' : Model) (os : StateDict) (e : exn) (optimizer' : Optimizer Val ORest),
      model_load_state_dict (ck_model w) ms = (Ok tt, model') ->
      c !! "optimizer" = Some os ->
      optimizer_load_state_dict (ck_optimizer w) os = (Raise e, optimizer') ->
      utils.load_checkpoint checkpoint_file lr w
      = (Raise e,
         {| ck_model := model'; ck_optimizer := optimizer'; ck_disk := ck_disk w;
            ck_stdout := ck_stdout w ++ ["=> Loading checkpoint"%string] |})).
Proof.
  intros Hc Hms. split.
  - intros e model' Hm.
    unfold utils.load_checkpoint, utils.model_load, utils.optimizer_load, utils.set_lr,
      utils.ck_print, utils.set_model, utils.set_optimizer.
    unfold mbind, M_bind, gets, lift, modify, utils.getitem. simpl.
    rewrite Hc, Hms. simpl. rewrite Hm. reflexivity.
  - intros model' os e optimizer' Hm Hos Ho.
    unfold utils.load_checkpoint, utils.model_load, utils.optimizer_load, utils.set_lr,
      utils.ck_print, utils.set_model, utils.set_optimizer.
    unfold mbind, M_bind, gets, lift, modify, utils.getitem. simpl.
    rewrite Hc, Hms. simpl. rewrite Hm. simpl. rewrite Hos. simpl. rewrite Ho.
    reflexivity.
Qed.

(** X15: a checkpoint whose module state loads but which has no
    ["optimizer"] entry makes [load_checkpoint] raise [KeyError] for that
    key after the module was replaced: the module holds the loaded state
    while the optimizer keeps its old state and rate. *)
Theorem load_checkpoint_partial_update (checkpoint_file : Path) (lr : Val)
    (w : CkWorld) (c : gmap string StateDict) (ms : StateDict) (model' : Model) :
  torch_load checkpoint_file DEVICE (ck_disk w) = Ok c ->
  c !! "state_dict" = Some ms ->
  model_load_state_dict (ck_model w) ms = (Ok tt, model') ->
  c !! "optimizer" = None ->
  utils.load_checkpoint checkpoint_file lr w
  = (Raise (KeyError "optimizer"),
     {| ck_model := model'; ck_optimizer := ck_optimizer w; ck_disk := ck_disk w;
        ck_stdout := ck_stdout w ++ ["=> Loading checkpoint"%string] |}).
Proof.
  intros Hc Hms Hm Hos.
  unfold utils.load_checkpoint, utils.model_load, utils.optimizer_load, utils.set_lr,
    utils.ck_print, utils.set_model, utils.set_optimizer.
  unfold mbind, M_bind, gets, lift, modify, utils.getitem. simpl.
  rewrite Hc, Hms. simpl. rewrite Hm. simpl. rewrite Hos. reflexivity.
Qed.

(** X16: a checkpoint without a ["state_dict"] entry makes
    [load_checkpoint] raise [KeyError] for that key before anything is
    loaded: module and optimizer are unchanged. *)
Theorem load_checkpoint_missing_state_dict (checkpoint_file : Path) (lr : Val)
    (w : CkWorld) (c : gmap string StateDict) :
  torch_load checkpoint_file DEVICE (ck_disk w) = Ok c ->
  c !! "state_dict" = None ->
  utils.load_checkpoint checkpoint_file lr w
  = (Raise (KeyError "state_dict"),
     {| ck_model := ck_model w; ck_optimizer := ck_optimizer w; ck_disk := ck_disk w;
        ck_stdout := ck_stdout w ++ ["=> Loading checkpoint"%string] |}).
Proof.
  intros Hc Hms.
  unfold utils.load_checkpoint, utils.model_load, utils.optimizer_load, utils.set_lr,
    utils.ck_print, utils.set_model, utils.set_optimizer.
  unfold mbind, M_bind, gets, lift, modify, utils.getitem. simpl.
  rewrite Hc, Hms. reflexivity.
Qed.

(** X17: when [load_checkpoint] returns, the optimizer differs from the
    one the framework restored from the file only in the ["lr"] entries:
    it has the same number of parameter groups, each group is the
    restored group with ["lr"] set, every other key of every group is as
    restored, and the rest of the optimizer is as restored. *)
Theorem load_checkpoint_changes_only_lr (checkpoint_file : Path) (lr : Val)
    (w w' : CkWorld) :
  utils.load_checkpoint checkpoint_file lr w = (Ok tt, w') ->
  exists (c : gmap string StateDict) (os : StateDict) (restored : Optimizer Val ORest),
    torch_load checkpoint_file DEVICE (ck_disk w) = Ok c /\
    c !! "optimizer" = Some os /\
    optimizer_load_state_dict (ck_optimizer w) os = (Ok tt, restored) /\
    opt_rest (ck_optimizer w') = opt_rest restored /\
    length (param_groups (ck_optimizer w')) = length (param_groups restored) /\
    forall (i : nat) (g : gmap string Val),
      param_groups (ck_optimizer w') !! i = Some g ->
      exists g0 : gmap string Val,
        param_groups restored !! i = Some g0 /\
        g = <["lr" := lr]> g0 /\
        forall key : string, key <> "lr"%string -> g !! key = g0 !! key.
Proof.
  intros Hrun.
  apply load_checkpoint_ok_inv in Hrun
    as (c & ms & os & model' & restored & Hc & _ & _ & Hos & Ho & ->).
  exists c, os, restored. simpl.
  split; [exact Hc |]. split; [exact Hos |]. split; [exact Ho |].
  split; [reflexivity |]. rewrite set_lr_groups_fmap.
  split; [apply length_fmap |].
  intros i g Hg. rewrite list_lookup_fmap in Hg.
  destruct (param_groups restored !! i) as [g0 |]; [| discriminate Hg].
  injection Hg as <-. exists g0. split; [reflexivity |]. split; [reflexivity |].
  intros key Hne. apply lookup_insert_ne. congruence.
Qed.

End CheckpointOutcomes.

(** ** The dataset paths of enums.py *)

(** X18: [DatasetType] has exactly the four members ANIME_DATASET,
    NATURAL_VIEW_DATASET, EDGES2SHOES and AFHQ_CATS_DATASET, in this
    order. The value of each is an absolute path: the path that pathlib
    makes of the literal, which is the literal without its trailing
    slash. No two members have the same value, so none is an alias of
    another. *)
Theorem DatasetType_values :
  (forall d : DatasetType.t, d ∈ DatasetType.members) /\
  NoDup DatasetType.members /\
  DatasetType.value <$> DatasetType.members =
    [MkPath "/media/omarabdelgawad/New Volume/Datasets/image_coloring/anime_dataset";
     MkPath "/media/omarabdelgawad/New Volume/Datasets/image_coloring/natural_view";
     MkPath "/media/omarabdelgawad/New Volume/Datasets/image_coloring/edges2shoes";
     MkPath "/home/eyad/Downloads/afhq"] /\
  (forall d : DatasetType.t, is_absolute (DatasetType.value d) = true) /\
  (forall d1 d2 : DatasetType.t,
      DatasetType.value d1 = DatasetType.value d2 -> d1 = d2).
Proof.
  split; [intros []; compute_done |].
  split; [compute_done |].
  split; [vm_compute; reflexivity |].
  split; [intros []; vm_compute; reflexivity |].
  intros [] [] Heq; try reflexivity; vm_compute in Heq; discriminate Heq.
Qed.

(** * Runs on the executable framework: further properties *)

Lemma ConvBlocks_empty_is_identity_witness :
  Toy.ConvBlocks_init 1 1024 1024 4 2 0 PaddingType.ZERO
    (Foreign "adain" (fun _ => false)) (Foreign "gelu" (fun _ => false)) 0%nat
  = Some (Ok (ConvBlocks [] (Sequential [])), 0%nat) /\
  Toy.forward (ConvBlocks [] (Sequential [])) [1; 2] = Ok [1; 2].
Proof.
  apply (@ConvBlocks_empty_is_identity Toy.tensor_ops Toy.layer_ctor 0 1024 1024 4 2 0
           PaddingType.ZERO (Foreign "adain" (fun _ => false))
           (Foreign "gelu" (fun _ => false)) 0%nat [1; 2]).
  lia.
Defined.

(** With -1 channels, batch normalization and an unknown activation, the
    failure is the normalization layer's constructor's, not the
    activation selector's. *)
Lemma ConvBlocks_raises_in_first_iteration_witness :
  Toy.ConvBlocks_init 1 (-1) 0 4 2 0 PaddingType.REFLECT
    (Member NormalizationType.BATCH) (Foreign "gelu" (fun _ => false)) 0%nat
  = Some (Raise (RuntimeError "Trying to create tensor with negative dimension"), 0%nat).
Proof.
  apply (proj1 (proj2 (@ConvBlocks_raises_in_first_iteration Toy.tensor_ops Toy.layer_ctor
                         0 (-1) 0 4 2 0 PaddingType.REFLECT
                         (Member NormalizationType.BATCH)
                         (Foreign "gelu" (fun _ => false)) 0%nat ltac:(lia)))
           NormalizationType.BATCH); reflexivity.
Defined.

Example ConvBlocks_3_10_run :
  exists (layers : list (Module_ nat)) (model : Module_ nat),
    Toy.ConvBlocks_init 10 3 10 4 2 0 PaddingType.REFLECT
      (Member NormalizationType.NONE) (Member ActivationType.RELU) 0%nat
    = Some (Ok (ConvBlocks layers model), 6%nat) /\
    block_channels <$> layers = [Some (3, 6); Some (6, 12)].
Proof. eexists _, _. split; reflexivity. Qed.

Lemma ConvBlocks_channels_chain_witness :
  exists (layers : list (Module_ nat)) (final : Module_ nat) (c : Z),
    last layers = Some final /\
    block_channels final = Some (c, c * 2) /\
    c < 10 <= c * 2.
Proof.
  destruct ConvBlocks_3_10_run as (layers & model & Hrun & _).
  destruct (@ConvBlocks_channels_chain Toy.tensor_ops Toy.layer_ctor 4 2 0
              PaddingType.REFLECT NormalizationType.NONE ActivationType.RELU
              10%nat 3 10 0%nat 6%nat layers model ltac:(lia) Hrun)
    as (_ & _ & _ & (final & c & Hlast & Hch & Hc)).
  exists layers, final, c. split; [exact Hlast |]. split; [exact Hch | exact Hc].
Defined.

Lemma ConvBlocks_forward_unfolds_witness :
  exists (first : Module_ nat) (rest : list (Module_ nat)),
    block_channels first = Some (3, 6) /\
    forall x : list Z,
      Toy.forward (ConvBlocks (first :: rest) (Sequential (first :: rest))) x
      = (y ← Toy.forward first x; Toy.forward (Sequential rest) y).
Proof.
  destruct ConvBlocks_3_10_run as (layers & model & Hrun & _).
  destruct (@ConvBlocks_forward_unfolds Toy.tensor_ops Toy.layer_ctor 4 2 0
              PaddingType.REFLECT NormalizationType.NONE ActivationType.RELU
              10%nat 3 10 0%nat 6%nat _ ltac:(lia) Hrun)
    as (first & rest & -> & (co & no & ao & ->) & Hforward).
  eexists _, rest. split; [| exact Hforward]. reflexivity.
Defined.



Lemma ResBlocks_empty_is_identity_witness :
  Toy.ResBlocks_init 8 (-3) (Foreign "adain" (fun _ => false)) PaddingType.ZERO
    (Foreign "gelu" (fun _ => false)) 0%nat
  = (Ok (ResBlocks [] (Sequential [])), 0%nat) /\
  Toy.forward (ResBlocks [] (Sequential [])) [1; 2] = Ok [1; 2].
Proof.
  apply (@ResBlocks_empty_is_identity Toy.tensor_ops Toy.layer_ctor 8 (-3)
           PaddingType.ZERO (Foreign "adain" (fun _ => false))
           (Foreign "gelu" (fun _ => false)) 0%nat [1; 2]).
  lia.
Defined.

Example evaluate_val_set_run :
  Toy.evaluate_val_set Toy.gen Toy.val_loader (MkPath "out") (Toy.world true)
  = (Ok tt,
     Toy.world_with true [Toy.saved "out/val_0.png" [3; 4; -1; -3]] []
       ["Saving 0 image"%string]).
Proof. reflexivity. Qed.

Example evaluate_val_set_failing_run :
  Toy.evaluate_val_set Toy.failing_gen Toy.val_loader (MkPath "out") (Toy.world true)
  = (Raise (RuntimeError "gen fails"), Toy.world false).
Proof. reflexivity. Qed.

(** At epoch 0 a failing generator already fails the tracing of the graph:
    the error and a second line are printed, and neither the graph nor
    [label_0.png] is written. *)
Example save_some_examples_failing_run :
  Toy.save_some_examples Toy.failing_gen Toy.val_loader 0 (MkPath "out") (Toy.world true)
  = (Raise (RuntimeError "gen fails"),
     Toy.world_with false [] []
       ["gen fails"%string; "Error occurs, No graph saved"%string]).
Proof. reflexivity. Qed.



Lemma utils_raise_leaves_generator_in_eval_witness :
  training (Toy.world true) = true /\
  training (Toy.world_with false [] []
              ["gen fails"%string; "Error occurs, No graph saved"%string]) = false /\
  training (Toy.world false) = false.
Proof.
  split; [reflexivity |]. split.
  - exact (proj1 (@utils_raise_leaves_generator_in_eval Toy.tensor_ops Toy.cfg
                    Toy.vision_ops Toy.failing_gen Toy.val_loader 0 (MkPath "out")
                    (Toy.world true) _ _)
             save_some_examples_failing_run).
  - exact (proj2 (@utils_raise_leaves_generator_in_eval Toy.tensor_ops Toy.cfg
                    Toy.vision_ops Toy.failing_gen Toy.val_loader 0 (MkPath "out")
                    (Toy.world true) _ _)
             evaluate_val_set_failing_run).
Defined.

Lemma evaluate_val_set_files_witness :
  exists images : list (list Z),
    files (Toy.world_with true [Toy.saved "out/val_0.png" [3; 4; -1; -3]] []
             ["Saving 0 image"%string])
    = files (Toy.world true) ++ @val_files Toy.tensor_ops (MkPath "out") 0 images.
Proof.
  destruct (@evaluate_val_set_files Toy.tensor_ops Toy.cfg Toy.vision_ops
              Toy.gen Toy.val_loader (MkPath "out") _ _ evaluate_val_set_run)
    as (images & _ & Hfiles & _).
  exists images. exact Hfiles.
Defined.

Lemma Toy_model_only_state_dict :
  Toy.checkpoint_model_only !! "state_dict"%string = Some (Toy.ModuleState Toy.model1).
Proof. unfold Toy.checkpoint_model_only. apply lookup_insert_eq. Qed.

Lemma Toy_model_only_optimizer :
  Toy.checkpoint_model_only !! "optimizer"%string = None.
Proof.
  unfold Toy.checkpoint_model_only.
  apply lookup_insert_None. split; [apply lookup_empty | discriminate].
Qed.

(** Saving under a folder that does not exist: the line is printed, the
    error of [torch.save] is raised and no file is written. *)
Lemma save_checkpoint_outcome_witness :
  Toy.save_checkpoint (MkPath "runs/gen.pth")
    (Toy.ck_world Toy.model1 Toy.optimizer1 [] [])
  = (Raise (RuntimeError "Parent directory does not exist."),
     Toy.ck_world Toy.model1 Toy.optimizer1 [] ["=> Saving checkpoint"%string]).
Proof.
  apply (@save_checkpoint_outcome Toy.cfg Toy.checkpoint_ops (MkPath "runs/gen.pth")
           (Toy.ck_world Toy.model1 Toy.optimizer1 [] []) Toy.checkpoint1).
  - unfold Toy.checkpoint1. rewrite lookup_insert_ne by discriminate.
    apply lookup_insert_eq.
  - unfold Toy.checkpoint1. apply lookup_insert_eq.
  - intros key Hne1 Hne2. unfold Toy.checkpoint1.
    apply lookup_insert_None. split; [| congruence].
    apply lookup_insert_None. split; [apply lookup_empty | congruence].
  - reflexivity.
Defined.

Lemma Toy_checkpoint1_state_dict :
  Toy.checkpoint1 !! "state_dict"%string = Some (Toy.ModuleState Toy.model1).
Proof.
  unfold Toy.checkpoint1. rewrite lookup_insert_ne by discriminate.
  apply lookup_insert_eq.
Qed.

(** Loading the two saved parameters into a module with three: the call
    raises, the module is left with the two loaded parameters and its own
    third one, and the optimizer keeps its rate. *)
Lemma load_checkpoint_failing_load_witness :
  Toy.load_checkpoint (MkPath "gen.pth") 3 Toy.world_larger_model
  = (Raise (RuntimeError "Error(s) in loading state_dict: size mismatch"),
     Toy.ck_world [7; 8; 0] Toy.optimizer2 [("gen.pth"%string, Toy.checkpoint1)]
       ["=> Loading checkpoint"%string]).
Proof.
  apply (proj1 (@load_checkpoint_failing_load Toy.cfg Toy.checkpoint_ops
                  (MkPath "gen.pth") 3 Toy.world_larger_model Toy.checkpoint1
                  (Toy.ModuleState Toy.model1) eq_refl Toy_checkpoint1_state_dict)).
  reflexivity.
Defined.

Lemma load_checkpoint_partial_update_witness :
  Toy.load_checkpoint (MkPath "gen.pth") 3 Toy.world_model_only
  = (Raise (KeyError "optimizer"),
     Toy.ck_world Toy.model1 Toy.optimizer2
       [("gen.pth"%string, Toy.checkpoint_model_only)]
       ["=> Loading checkpoint"%string]).
Proof.
  exact (@load_checkpoint_partial_update Toy.cfg Toy.checkpoint_ops (MkPath "gen.pth") 3
           Toy.world_model_only Toy.checkpoint_model_only (Toy.ModuleState Toy.model1)
           Toy.model1 eq_refl Toy_model_only_state_dict eq_refl Toy_model_only_optimizer).
Defined.

Lemma load_checkpoint_missing_state_dict_witness :
  Toy.load_checkpoint (MkPath "gen.pth") 3 Toy.world_empty_checkpoint
  = (Raise (KeyError "state_dict"),
     Toy.ck_world Toy.model2 Toy.optimizer2 [("gen.pth"%string, (∅ : Toy.checkpoint))]
       ["=> Loading checkpoint"%string]).
Proof.
  exact (@load_checkpoint_missing_state_dict Toy.cfg Toy.checkpoint_ops
           (MkPath "gen.pth") 3 Toy.world_empty_checkpoint ∅ eq_refl (lookup_empty _)).
Defined.

Lemma load_checkpoint_changes_only_lr_witness :
  exists restored : Optimizer Z (list Z),
    opt_rest (@ck_optimizer Toy.cfg Toy.checkpoint_ops Toy.loaded_world)
      = opt_rest restored /\
    length (param_groups (@ck_optimizer Toy.cfg Toy.checkpoint_ops Toy.loaded_world))
      = length (param_groups restored).
Proof.
  destruct (@load_checkpoint_changes_only_lr Toy.cfg Toy.checkpoint_ops
              (MkPath "gen.pth") 3 Toy.fresh_world Toy.loaded_world Toy_load_run)
    as (c & os & restored & _ & _ & _ & Hrest & Hlen & _).
  exists restored. split; [exact Hrest | exact Hlen].
Defined.
